(** * Credit-card payment eligibility: the two policy variants

    A shallow embedding of the Shopify payment-customization function
    [cartPaymentMethodsTransformRun] in its two versions:

    - [Base]: the earlier policy (customer check, parcel check);
    - [Extended]: the later policy of
      [extensions/cc-payment-eligibility/src/cart_payment_methods_transform_run.js]
      (customer, location, parcel and shipping checks).

    The input document is modelled with the shape the code reads: records
    whose fields may be [undefined] (absent), [null] or present.  Reading a
    property of [undefined] or [null] throws a [TypeError], and
    [console.log] appends a line to a trace; both effects are threaded
    through a small writer-and-error monad.  JavaScript numbers are IEEE 754
    binary64 values, here the primitive [float]s.  Strings are sequences of
    8-bit characters and [toLowerCase] is the ASCII one: names outside ASCII
    are outside the model. *)

From Stdlib Require Import String Ascii List Bool Arith Lia.
From Stdlib Require Import Floats.PrimFloat.
From Stdlib Require Import Permutation.
Import ListNotations.
Open Scope string_scope.
Open Scope list_scope.

Set Implicit Arguments.

(* ------------------------------------------------------------------ *)
(** * JavaScript values *)

(** A field that may be absent, [null] or present. *)
Inductive nullable (A : Type) : Type :=
| Undefined
| Null
| Val (a : A).
Arguments Undefined {A}.
Arguments Null {A}.

(** A metafield value as the code may receive it: the schema says string,
    the comparison [!== "true"] accepts anything. *)
Inductive JsValue : Type :=
| JUndefined
| JNull
| JBool (b : bool)
| JNumber (x : float)
| JString (s : string).

(** Objects and arrays are truthy, [undefined] and [null] are not. *)
Definition truthy {A : Type} (o : nullable A) : bool :=
  match o with
  | Val _ => true
  | _ => false
  end.

(** [o?.f] *)
Definition chain {A B : Type} (o : nullable A) (f : A -> nullable B) : nullable B :=
  match o with
  | Val a => f a
  | _ => Undefined
  end.
Notation "o ?. f" := (chain o f) (at level 20, left associativity, format "o ?. f").

(** [a || b] where [a] is an array or nullish. *)
Definition or_else {A : Type} (o : nullable A) (d : A) : A :=
  match o with
  | Val a => a
  | _ => d
  end.

(** [v === s] for a string literal [s]. *)
Definition strict_eq_string (v : JsValue) (s : string) : bool :=
  match v with
  | JString t => String.eqb t s
  | _ => false
  end.

(** [o === s] for a string-typed field. *)
Definition field_eq_string (o : nullable string) (s : string) : bool :=
  match o with
  | Val t => String.eqb t s
  | _ => false
  end.

(** ** Numbers *)

(** [ToBoolean] on a number: [0], [-0] and [NaN] are falsy. *)
Definition number_truthy (x : float) : bool :=
  negb (PrimFloat.eqb x 0%float) && PrimFloat.eqb x x.

(** [ToNumber] on a numeric field: [undefined] is [NaN], [null] is [0]. *)
Definition to_number (w : nullable float) : float :=
  match w with
  | Val x => x
  | Null => 0%float
  | Undefined => PrimFloat.nan
  end.

(** [ToBoolean] on a numeric field. *)
Definition to_boolean (w : nullable float) : bool :=
  match w with
  | Val x => number_truthy x
  | _ => false
  end.

(** [w > t] for a number [t]. *)
Definition gt (w : nullable float) (t : float) : bool :=
  PrimFloat.ltb t (to_number w).

(** [w === t] for a number [t]. *)
Definition strict_eq_number (w : nullable float) (t : float) : bool :=
  match w with
  | Val x => PrimFloat.eqb x t
  | _ => false
  end.

Definition is_null {A : Type} (o : nullable A) : bool :=
  match o with
  | Null => true
  | _ => false
  end.

Definition is_undefined {A : Type} (o : nullable A) : bool :=
  match o with
  | Undefined => true
  | _ => false
  end.

(** ** Strings *)

Definition lower_ascii (c : ascii) : ascii :=
  let n := nat_of_ascii c in
  if ((65 <=? n)%nat && (n <=? 90)%nat)%bool then ascii_of_nat (n + 32) else c.

Fixpoint toLowerCase (s : string) : string :=
  match s with
  | EmptyString => EmptyString
  | String c s' => String (lower_ascii c) (toLowerCase s')
  end.

(** [s.includes(sub)] *)
Fixpoint includes (s sub : string) : bool :=
  String.prefix sub s ||
  match s with
  | EmptyString => false
  | String _ s' => includes s' sub
  end.

(** [Array.prototype.find]: the first element satisfying [p], else [undefined]. *)
Fixpoint array_find {A : Type} (p : A -> bool) (l : list A) : nullable A :=
  match l with
  | [] => Undefined
  | x :: rest => if p x then Val x else array_find p rest
  end.

(** [Array.prototype.some] *)
Definition array_some {A : Type} (p : A -> bool) (l : list A) : bool := existsb p l.

(* ------------------------------------------------------------------ *)
(** * Effects: the log and thrown errors *)

Inductive Error : Type :=
| TypeError (msg : string).

Inductive outcome (A : Type) : Type :=
| Return (a : A)
| Throw (e : Error).
Arguments Throw {A} e.

(** A computation yields the lines it logged and how it ended. *)
Definition M (A : Type) : Type := (list string * outcome A)%type.

Definition ret {A : Type} (a : A) : M A := ([], Return a).

Definition throw {A : Type} (e : Error) : M A := ([], Throw e).

Definition bind {A B : Type} (m : M A) (f : A -> M B) : M B :=
  match m with
  | (l, Return a) => let (l', r) := f a in (l ++ l', r)
  | (l, Throw e) => (l, Throw e)
  end.

Notation "x <- m ;; k" := (bind m (fun x => k))
  (at level 61, m at next level, right associativity).
Notation "m ;; k" := (bind m (fun _ => k))
  (at level 61, right associativity).

(** [console.log(...)]: the line is identified by its text; interpolated
    values are left as written in the template. *)
Definition console_log (line : string) : M unit := ([line], Return tt).

Definition logs {A : Type} (m : M A) : list string := fst m.
Definition result {A : Type} (m : M A) : outcome A := snd m.

(** [o.prop] on a possibly absent object [o]: a [TypeError] when [o] is
    [undefined] or [null]. *)
Definition read {A : Type} (o : nullable A) (prop : string) : M A :=
  match o with
  | Val a => ret a
  | Undefined =>
      throw (TypeError ("Cannot read properties of undefined (reading '" ++ prop ++ "')")%string)
  | Null =>
      throw (TypeError ("Cannot read properties of null (reading '" ++ prop ++ "')")%string)
  end.

(* ------------------------------------------------------------------ *)
(** * The input and output documents *)

Record Metafield : Type := { value : JsValue }.

(** [attr?.value] *)
Definition value_of (attr : nullable Metafield) : JsValue :=
  match attr with
  | Val m => value m
  | _ => JUndefined
  end.

Module PaymentMethod.
Record t : Type := { id : nullable string; name : nullable string }.
End PaymentMethod.

Record Customer : Type := { ccPilotEligible : nullable Metafield }.

Module Location.
Record t : Type :=
  { id : nullable string;
    name : nullable string;
    ccLocationEligible : nullable Metafield }.
End Location.

Record PurchasingCompany : Type := { location : nullable Location.t }.

Record BuyerIdentity : Type :=
  { customer : nullable Customer;
    purchasingCompany : nullable PurchasingCompany }.

Module Product.
Record t : Type :=
  { id : nullable string;
    requiresLtl : nullable Metafield;
    isParcelEligible : nullable Metafield }.
End Product.

Record Merchandise : Type :=
  { __typename : nullable string;
    weight : nullable float;
    product : nullable Product.t }.

Record CartLine : Type := { merchandise : nullable Merchandise }.

Record DeliveryOption : Type :=
  { title : nullable string;
    handle : nullable string }.

Record DeliveryGroup : Type :=
  { selectedDeliveryOption : nullable DeliveryOption }.

Record Cart : Type :=
  { buyerIdentity : nullable BuyerIdentity;
    lines : nullable (list CartLine);
    deliveryGroups : nullable (list DeliveryGroup) }.

Record Input : Type :=
  { paymentMethods : nullable (list PaymentMethod.t);
    cart : nullable Cart }.

(** [{ paymentMethodHide: { paymentMethodId } }] *)
Inductive Operation : Type :=
| paymentMethodHide (paymentMethodId : nullable string).

Record Result : Type := { operations : list Operation }.

Definition NO_CHANGES : Result := {| operations := [] |}.

Definition PARCEL_WEIGHT_THRESHOLD_LBS : float := 150%float.

(** The object literal built on every hiding path. *)
Definition hide (ccPaymentMethod : PaymentMethod.t) : Result :=
  {| operations := [paymentMethodHide (PaymentMethod.id ccPaymentMethod)] |}.

(** [name] is a non-empty string and its lower-cased form satisfies [p]. *)
Definition name_matches (p : string -> bool) (method : PaymentMethod.t) : bool :=
  match PaymentMethod.name method with
  | Val n => negb (String.eqb n "") && p (toLowerCase n)
  | _ => false
  end.

(* ------------------------------------------------------------------ *)
(** * The base policy *)

Module Base.

(** [input.cart?.lines || []] and the like are written with [chain] and
    [or_else]; a cart line is accessed with [read], which throws on an
    absent object. *)

Definition findCreditCardPaymentMethod
    (paymentMethods : nullable (list PaymentMethod.t)) : nullable PaymentMethod.t :=
  if negb (truthy paymentMethods) then Null
  else
    array_find
      (name_matches (fun nameLower =>
         includes nameLower "credit" ||
         includes nameLower "card" ||
         includes nameLower "visa" ||
         includes nameLower "mastercard"))
      (or_else paymentMethods []).

Definition isCustomerEligible (customer : nullable Customer) : M bool :=
  match customer with
  | Val c =>
      let pilot := value_of (ccPilotEligible c) in
      if negb (strict_eq_string pilot "true") then
        console_log "Customer not pilot eligible: ${ccPilotEligible}" ;;
        ret false
      else ret true
  | _ =>
      console_log "No customer found - hiding CC" ;;
      ret false
  end.

(** The body of the [for ... of] loop, with [return false] leaving it. *)
Fixpoint parcel_loop (cartLines : list CartLine) : M bool :=
  match cartLines with
  | [] => ret true
  | line :: rest =>
      m <- read (merchandise line) "__typename" ;;
      if negb (field_eq_string (__typename m) "ProductVariant") then
        console_log "Non-product variant found: ${line.merchandise.__typename} - hiding CC" ;;
        ret false
      else
        p <- read (product m) "requiresLtl" ;;
        if strict_eq_string (value_of (Product.requiresLtl p)) "true" then
          console_log "Product ${product.id} requires LTL - hiding CC" ;;
          ret false
        else if strict_eq_string (value_of (Product.isParcelEligible p)) "false" then
          console_log "Product ${product.id} is not parcel eligible - hiding CC" ;;
          ret false
        else
          if to_boolean (weight m) && gt (weight m) PARCEL_WEIGHT_THRESHOLD_LBS then
            console_log
              "Product ${product.id} exceeds weight limit: ${weight} lbs - hiding CC" ;;
            ret false
          else parcel_loop rest
  end.

Definition isCartParcelEligible (cartLines : nullable (list CartLine)) : M bool :=
  if negb (truthy cartLines) || (length (or_else cartLines []) =? 0)%nat then
    console_log "Empty cart - allowing CC" ;;
    ret true
  else parcel_loop (or_else cartLines []).

Definition cartPaymentMethodsTransformRun (input : Input) : M Result :=
  console_log "=== CC Payment Eligibility Function Started ===" ;;
  console_log "Full input:" ;;
  let ccPaymentMethod := findCreditCardPaymentMethod (paymentMethods input) in
  console_log "Found CC payment method:" ;;
  match ccPaymentMethod with
  | Val cc =>
      let customer := (cart input)?.buyerIdentity?.customer in
      console_log "Customer data:" ;;
      eligible <- isCustomerEligible customer ;;
      if negb eligible then
        console_log "Customer not eligible - hiding CC payment method" ;;
        console_log "Returning hide result:" ;;
        ret (hide cc)
      else
        let cartLines := or_else ((cart input)?.lines) [] in
        console_log "Cart lines count:" ;;
        parcel <- isCartParcelEligible (Val cartLines) ;;
        if negb parcel then
          console_log "Cart contains non-parcel items - hiding CC payment method" ;;
          console_log "Returning hide result:" ;;
          ret (hide cc)
        else
          console_log "All eligibility checks passed - showing CC payment method" ;;
          console_log "=== CC Payment Eligibility Function Completed ===" ;;
          ret NO_CHANGES
  | _ =>
      console_log "No credit card payment method found" ;;
      ret NO_CHANGES
  end.

End Base.

(* ------------------------------------------------------------------ *)
(** * The extended policy *)

Module Extended.

Definition findCreditCardPaymentMethod
    (paymentMethods : nullable (list PaymentMethod.t)) : nullable PaymentMethod.t :=
  if negb (truthy paymentMethods) then Null
  else
    array_find
      (name_matches (fun nameLower =>
         if includes nameLower "gift" then false
         else
           includes nameLower "credit" ||
           includes nameLower "bogus" ||
           includes nameLower "stripe"))
      (or_else paymentMethods []).

Definition isCustomerEligible (customer : nullable Customer) : M bool :=
  match customer with
  | Val c =>
      let pilot := value_of (ccPilotEligible c) in
      if negb (strict_eq_string pilot "true") then
        console_log "Customer not pilot eligible: ${ccPilotEligible}" ;;
        ret false
      else ret true
  | _ =>
      console_log "No customer found - hiding CC" ;;
      ret false
  end.

Definition isLocationEligible (purchasingCompany : nullable PurchasingCompany) : M bool :=
  match purchasingCompany with
  | Val company =>
      match location company with
      | Val loc =>
          let eligible := value_of (Location.ccLocationEligible loc) in
          if negb (strict_eq_string eligible "true") then
            console_log
              "Location ${location.name} (${location.id}) not eligible: ${ccLocationEligible}" ;;
            ret false
          else
            console_log "Location ${location.name} is eligible for CC" ;;
            ret true
      | _ =>
          console_log "No location found for B2B customer - hiding CC" ;;
          ret false
      end
  | _ =>
      console_log "No purchasing company - B2C customer - skipping location check" ;;
      ret true
  end.

Definition allowedMethods : list string := ["home delivery"; "express saver"].

(** [field?.toLowerCase() || ""] *)
Definition lower_or_empty (field : nullable string) : string :=
  match field with
  | Val s => toLowerCase s
  | _ => ""
  end.

Fixpoint shipping_loop (deliveryGroups : list DeliveryGroup) : M bool :=
  match deliveryGroups with
  | [] => ret true
  | group :: rest =>
      match selectedDeliveryOption group with
      | Val selectedOption =>
          let title := lower_or_empty (title selectedOption) in
          let handle := lower_or_empty (handle selectedOption) in
          console_log "Selected shipping: '${selectedOption.title}' (handle: ${selectedOption.handle})" ;;
          let isAllowed := array_some (fun method => includes title method) allowedMethods in
          if negb isAllowed then
            console_log "Shipping method '${selectedOption.title}' not eligible for CC - hiding CC" ;;
            ret false
          else
            console_log "Shipping method '${selectedOption.title}' is eligible for CC" ;;
            shipping_loop rest
      | _ =>
          console_log "No shipping method selected yet - allowing CC" ;;
          shipping_loop rest
      end
  end.

Definition isShippingMethodEligible (deliveryGroups : nullable (list DeliveryGroup)) : M bool :=
  if negb (truthy deliveryGroups) || (length (or_else deliveryGroups []) =? 0)%nat then
    console_log "No delivery groups - allowing CC by default" ;;
    ret true
  else shipping_loop (or_else deliveryGroups []).

Fixpoint parcel_loop (cartLines : list CartLine) : M bool :=
  match cartLines with
  | [] => ret true
  | line :: rest =>
      m <- read (merchandise line) "__typename" ;;
      if negb (field_eq_string (__typename m) "ProductVariant") then
        console_log "Non-product variant found: ${line.merchandise.__typename} - hiding CC" ;;
        ret false
      else
        let product := product m in
        let weight := weight m in
        if is_null weight || is_undefined weight || strict_eq_number weight 0%float then
          _ <- read product "id" ;;
          console_log "Product ${product.id} has no weight - non-parcel - hiding CC" ;;
          ret false
        else if gt weight PARCEL_WEIGHT_THRESHOLD_LBS then
          _ <- read product "id" ;;
          console_log
            "Product ${product.id} exceeds weight limit: ${weight} lbs - non-parcel - hiding CC" ;;
          ret false
        else parcel_loop rest
  end.

Definition isCartParcelEligible (cartLines : nullable (list CartLine)) : M bool :=
  if negb (truthy cartLines) || (length (or_else cartLines []) =? 0)%nat then
    console_log "Empty cart - allowing CC" ;;
    ret true
  else parcel_loop (or_else cartLines []).

Definition cartPaymentMethodsTransformRun (input : Input) : M Result :=
  console_log "=== CC Payment Eligibility Function Started ===" ;;
  console_log "Full input:" ;;
  let ccPaymentMethod := findCreditCardPaymentMethod (paymentMethods input) in
  console_log "Found CC payment method:" ;;
  match ccPaymentMethod with
  | Val cc =>
      let customer := (cart input)?.buyerIdentity?.customer in
      console_log "Customer data:" ;;
      eligible <- isCustomerEligible customer ;;
      if negb eligible then
        console_log "Customer not eligible - hiding CC payment method" ;;
        console_log "Returning hide result:" ;;
        ret (hide cc)
      else
        let purchasingCompany := (cart input)?.buyerIdentity?.purchasingCompany in
        console_log "Purchasing company:" ;;
        located <- isLocationEligible purchasingCompany ;;
        if negb located then
          console_log "Location not eligible - hiding CC payment method" ;;
          console_log "Returning hide result:" ;;
          ret (hide cc)
        else
          let cartLines := or_else ((cart input)?.lines) [] in
          console_log "Cart lines count:" ;;
          parcel <- isCartParcelEligible (Val cartLines) ;;
          if negb parcel then
            console_log "Cart contains non-parcel items - hiding CC payment method" ;;
            console_log "Returning hide result:" ;;
            ret (hide cc)
          else
            let deliveryGroups := or_else ((cart input)?.deliveryGroups) [] in
            console_log "Delivery groups count:" ;;
            shipping <- isShippingMethodEligible (Val deliveryGroups) ;;
            if negb shipping then
              console_log "Selected shipping method not eligible - hiding CC payment method" ;;
              console_log "Returning hide result:" ;;
              ret (hide cc)
            else
              console_log "All eligibility checks passed - showing CC payment method" ;;
              console_log "=== CC Payment Eligibility Function Completed ===" ;;
              ret NO_CHANGES
  | _ =>
      console_log "No credit card payment method found" ;;
      ret NO_CHANGES
  end.

End Extended.

(* ------------------------------------------------------------------ *)
(** * Concrete documents used below *)

Definition method (i n : string) : PaymentMethod.t :=
  {| PaymentMethod.id := Val i; PaymentMethod.name := Val n |}.

Definition gift_card : PaymentMethod.t := method "pm-gift" "Gift Card".
Definition credit_card : PaymentMethod.t := method "pm-cc" "Credit Card".
Definition visa_credit_card : PaymentMethod.t := method "pm1" "Visa Credit Card".

Definition metafield (s : string) : nullable Metafield :=
  Val {| value := JString s |}.

Definition pilot_customer : Customer := {| ccPilotEligible := metafield "true" |}.

Definition plain_product : Product.t :=
  {| Product.id := Val "p1";
     Product.requiresLtl := Undefined;
     Product.isParcelEligible := Undefined |}.

Definition variant_line (w : nullable float) (p : nullable Product.t) : CartLine :=
  {| merchandise :=
       Val {| __typename := Val "ProductVariant"; weight := w; product := p |} |}.

Definition option_group (t h : string) : DeliveryGroup :=
  {| selectedDeliveryOption := Val {| title := Val t; handle := Val h |} |}.

Definition b2c_input (methods : list PaymentMethod.t) (c : nullable Customer)
    (ls : list CartLine) (gs : list DeliveryGroup) : Input :=
  {| paymentMethods := Val methods;
     cart := Val {| buyerIdentity :=
                      Val {| customer := c; purchasingCompany := Undefined |};
                    lines := Val ls;
                    deliveryGroups := Val gs |} |}.

(** The lower-cased name of the method contains "gift". *)
Definition mentions_gift (m : PaymentMethod.t) : bool :=
  match PaymentMethod.name m with
  | Val n => includes (toLowerCase n) "gift"
  | _ => false
  end.

(** The string contains an entry of the shipping allow-list. *)
Definition matches_allow_list (s : string) : bool :=
  array_some (fun method => includes s method) Extended.allowedMethods.

(** What the shipping loop decides for one delivery group. *)
Definition group_passes (g : DeliveryGroup) : bool :=
  match selectedDeliveryOption g with
  | Val o => matches_allow_list (Extended.lower_or_empty (title o))
  | _ => true
  end.

(** The shipping rule in the specification's words: the title or the handle,
    lower-cased, contains an allow-list entry. *)
Definition spec_group_passes (g : DeliveryGroup) : bool :=
  match selectedDeliveryOption g with
  | Val o =>
      matches_allow_list (Extended.lower_or_empty (title o)) ||
      matches_allow_list (Extended.lower_or_empty (handle o))
  | _ => true
  end.

(** [input.cart?.buyerIdentity?.customer] and its siblings, as the evaluator
    reads them. *)
Definition customer_of (input : Input) : nullable Customer :=
  (cart input)?.buyerIdentity?.customer.

Definition purchasingCompany_of (input : Input) : nullable PurchasingCompany :=
  (cart input)?.buyerIdentity?.purchasingCompany.

Definition lines_of (input : Input) : list CartLine :=
  or_else ((cart input)?.lines) [].

(** Neither flag of the base policy disqualifies the product. *)
Definition no_disqualifying_flag (p : Product.t) : bool :=
  negb (strict_eq_string (value_of (Product.requiresLtl p)) "true") &&
  negb (strict_eq_string (value_of (Product.isParcelEligible p)) "false").

(** The customer carries the pilot attribute with the value "true". *)
Definition pilot_enabled (c : nullable Customer) : Prop :=
  exists (cu : Customer) (a : Metafield),
    c = Val cu /\ ccPilotEligible cu = Val a /\ value a = JString "true".

(** The location carries the eligibility attribute with the value "true". *)
Definition location_enabled (loc : Location.t) : Prop :=
  exists a : Metafield,
    Location.ccLocationEligible loc = Val a /\ value a = JString "true".

(** The lines logged before the target is looked at. *)
Definition preamble : list string :=
  ["=== CC Payment Eligibility Function Started ===";
   "Full input:";
   "Found CC payment method:"].

(** The shape of a returned document for a given target: no operation, or
    the single operation hiding the target. *)
Definition decision_for (target : nullable PaymentMethod.t) (r : Result) : Prop :=
  operations r = [] \/
  exists cc : PaymentMethod.t,
    target = Val cc /\ operations r = [paymentMethodHide (PaymentMethod.id cc)].

(** A cart line whose [merchandise] and [product] objects are present. *)
Definition line_well_formed (line : CartLine) : Prop :=
  exists (m : Merchandise) (p : Product.t),
    merchandise line = Val m /\ product m = Val p.

(* ------------------------------------------------------------------ *)
(** * The checks as predicates on the document *)

(** The callback the base resolver passes to [find]. *)
Definition base_matches : PaymentMethod.t -> bool :=
  name_matches (fun nameLower =>
    includes nameLower "credit" ||
    includes nameLower "card" ||
    includes nameLower "visa" ||
    includes nameLower "mastercard").

(** The callback the extended resolver passes to [find]. *)
Definition extended_matches : PaymentMethod.t -> bool :=
  name_matches (fun nameLower =>
    if includes nameLower "gift" then false
    else
      includes nameLower "credit" ||
      includes nameLower "bogus" ||
      includes nameLower "stripe").

(** [input.cart?.deliveryGroups || []] *)
Definition groups_of (input : Input) : list DeliveryGroup :=
  or_else ((cart input)?.deliveryGroups) [].

(** The value the customer check returns. *)
Definition customer_passes (c : nullable Customer) : bool :=
  strict_eq_string (value_of (c?.ccPilotEligible)) "true".

(** The value the location check returns. *)
Definition location_passes (pc : nullable PurchasingCompany) : bool :=
  match pc with
  | Val c => strict_eq_string (value_of ((location c)?.Location.ccLocationEligible)) "true"
  | _ => true
  end.

(** What one iteration of the base parcel loop decides for a line whose
    [merchandise] and [product] are present (the loop throws otherwise,
    unless the line is not a [ProductVariant]). *)
Definition base_line_passes (line : CartLine) : bool :=
  match merchandise line with
  | Val m =>
      field_eq_string (__typename m) "ProductVariant" &&
      match product m with
      | Val p =>
          no_disqualifying_flag p &&
          negb (to_boolean (weight m) && gt (weight m) PARCEL_WEIGHT_THRESHOLD_LBS)
      | _ => false
      end
  | _ => false
  end.

(** What one iteration of the extended parcel loop decides for a line whose
    [merchandise] is present. *)
Definition extended_line_passes (line : CartLine) : bool :=
  match merchandise line with
  | Val m =>
      field_eq_string (__typename m) "ProductVariant" &&
      negb (is_null (weight m) || is_undefined (weight m) ||
            strict_eq_number (weight m) 0%float ||
            gt (weight m) PARCEL_WEIGHT_THRESHOLD_LBS)
  | _ => false
  end.

(** The group has a selected delivery option. *)
Definition has_selection (g : DeliveryGroup) : bool :=
  truthy (selectedDeliveryOption g).

(** [name] is [undefined], [null] or the empty string. *)
Definition name_falsy (m : PaymentMethod.t) : bool :=
  match PaymentMethod.name m with
  | Val n => String.eqb n ""
  | _ => true
  end.

(** The line with both product flags removed. *)
Definition strip_flags (line : CartLine) : CartLine :=
  {| merchandise :=
       match merchandise line with
       | Val m =>
           Val {| __typename := __typename m;
                  weight := weight m;
                  product :=
                    match product m with
                    | Val p =>
                        Val {| Product.id := Product.id p;
                               Product.requiresLtl := Undefined;
                               Product.isParcelEligible := Undefined |}
                    | other => other
                    end |}
       | other => other
       end |}.

(** A cart line whose [merchandise] and [product] are present and whose
    product carries no disqualifying flag. *)
Definition line_unflagged (line : CartLine) : Prop :=
  exists (m : Merchandise) (p : Product.t),
    merchandise line = Val m /\ product m = Val p /\ no_disqualifying_flag p = true.

(** [title] is [undefined], [null] or the empty string. *)
Definition title_missing (t : nullable string) : Prop :=
  t = Undefined \/ t = Null \/ t = Val ""%string.

(* ------------------------------------------------------------------ *)
(** * The monad's equations *)

Lemma result_bind (A B : Type) (m : M A) (f : A -> M B) :
  result (bind m f) =
  match result m with
  | Return a => result (f a)
  | Throw e => Throw e
  end.
Proof.
  destruct m as [l [a | e]]; simpl; [destruct (f a) |]; reflexivity.
Qed.

Lemma logs_bind (A B : Type) (m : M A) (f : A -> M B) :
  logs (bind m f) =
  logs m ++ match result m with
            | Return a => logs (f a)
            | Throw _ => []
            end.
Proof.
  destruct m as [l [a | e]]; simpl; [destruct (f a) | rewrite app_nil_r]; reflexivity.
Qed.

Lemma result_log_then (A : Type) (line : string) (k : M A) :
  result (console_log line ;; k) = result k.
Proof. rewrite result_bind. reflexivity. Qed.

Lemma logs_log_then (A : Type) (line : string) (k : M A) :
  logs (console_log line ;; k) = line :: logs k.
Proof. rewrite logs_bind. reflexivity. Qed.

Lemma M_eq (A : Type) (m : M A) : m = (logs m, result m).
Proof. destruct m; reflexivity. Qed.

(** The scenarios of the specification's test list. *)
Example scenario_weight_50 :
  result (Extended.cartPaymentMethodsTransformRun
            (b2c_input [visa_credit_card] (Val pilot_customer)
               [variant_line (Val 50%float) (Val plain_product)] []))
  = Return NO_CHANGES.
Proof. reflexivity. Qed.

Example scenario_weight_200 :
  result (Extended.cartPaymentMethodsTransformRun
            (b2c_input [visa_credit_card] (Val pilot_customer)
               [variant_line (Val 200%float) (Val plain_product)] []))
  = Return {| operations := [paymentMethodHide (Val "pm1")] |}.
Proof. reflexivity. Qed.

Example scenario_base_weight_200 :
  result (Base.cartPaymentMethodsTransformRun
            (b2c_input [visa_credit_card] (Val pilot_customer)
               [variant_line (Val 200%float) (Val plain_product)] []))
  = Return {| operations := [paymentMethodHide (Val "pm1")] |}.
Proof. reflexivity. Qed.

(* ------------------------------------------------------------------ *)
(** * Target Resolver *)

Lemma array_find_sound (A : Type) (p : A -> bool) (l : list A) (x : A) :
  array_find p l = Val x -> p x = true /\ In x l.
Proof.
  induction l as [| y l IH]; simpl; [discriminate |].
  destruct (p y) eqn:Hy.
  - intros [= <-]. auto.
  - intros H. destruct (IH H). auto.
Qed.

Lemma gift_is_denied (m : PaymentMethod.t) (allow : string -> bool) :
  mentions_gift m = true ->
  name_matches (fun nameLower => if includes nameLower "gift" then false else allow nameLower) m
  = false.
Proof.
  unfold mentions_gift, name_matches.
  destruct (PaymentMethod.name m) as [| | n]; try reflexivity.
  intros ->. apply andb_false_r.
Qed.

(** C1: the claim holds of the extended resolver and is broken by the base
    resolver.  On the list [Gift Card; Credit Card] the base resolver, which
    is documented to find the credit-card method and has no deny-list,
    returns the gift card: its lower-cased name contains "gift" and the
    allow-list entry "card".  On the same list the extended resolver skips
    the gift card and returns the credit card that follows it. *)
Lemma C1_base_selects_gift_card :
  Base.findCreditCardPaymentMethod (Val [gift_card; credit_card]) = Val gift_card /\
  mentions_gift gift_card = true /\
  Extended.findCreditCardPaymentMethod (Val [gift_card; credit_card]) = Val credit_card.
Proof. repeat split. Qed.

(** X20: in the extended policy the resolver never selects a method whose
    lower-cased name contains "gift", whatever else the name contains: such
    a candidate is rejected before the allow-list is consulted, and the
    search goes on with the rest of the list. *)
Theorem X20_extended_resolver_denies_gift :
  (forall (methods : nullable (list PaymentMethod.t)) (m : PaymentMethod.t),
      Extended.findCreditCardPaymentMethod methods = Val m ->
      mentions_gift m = false) /\
  (forall (m : PaymentMethod.t) (rest : list PaymentMethod.t),
      mentions_gift m = true ->
      Extended.findCreditCardPaymentMethod (Val (m :: rest)) =
      Extended.findCreditCardPaymentMethod (Val rest)).
Proof.
  split.
  - intros [| | methods] m; simpl; try discriminate.
    intros H. apply array_find_sound in H. destruct H as [H _].
    destruct (mentions_gift m) eqn:G; [| reflexivity].
    rewrite (gift_is_denied m _ G) in H. discriminate.
  - intros m rest G. unfold Extended.findCreditCardPaymentMethod. simpl.
    rewrite (gift_is_denied m _ G). reflexivity.
Qed.

Lemma X20_extended_resolver_denies_gift_witness :
  mentions_gift credit_card = false /\
  Extended.findCreditCardPaymentMethod (Val [gift_card; credit_card]) =
  Extended.findCreditCardPaymentMethod (Val [credit_card]).
Proof.
  destruct X20_extended_resolver_denies_gift as [H1 H2].
  split.
  - apply (H1 (Val [gift_card; credit_card]) credit_card). reflexivity.
  - apply (H2 gift_card [credit_card]). reflexivity.
Defined.

(* ------------------------------------------------------------------ *)
(** * Shipping-method check *)

Lemma shipping_loop_result (groups : list DeliveryGroup) :
  result (Extended.shipping_loop groups) = Return (forallb group_passes groups).
Proof.
  induction groups as [| g groups IH]; [reflexivity |].
  cbn [Extended.shipping_loop forallb]. unfold group_passes at 1.
  destruct (selectedDeliveryOption g) as [| | o].
  - rewrite result_log_then. exact IH.
  - rewrite result_log_then. exact IH.
  - rewrite result_log_then.
    fold (matches_allow_list (Extended.lower_or_empty (title o))).
    destruct (matches_allow_list (Extended.lower_or_empty (title o)));
      cbn [negb andb]; rewrite result_log_then; [exact IH | reflexivity].
Qed.

Lemma isShippingMethodEligible_result (groups : nullable (list DeliveryGroup)) :
  result (Extended.isShippingMethodEligible groups) =
  Return (forallb group_passes (or_else groups [])).
Proof.
  destruct groups as [| | [| g groups]]; try reflexivity.
  unfold Extended.isShippingMethodEligible.
  cbn [truthy negb or_else length Nat.eqb orb].
  apply shipping_loop_result.
Qed.

(** C2 (counterexample): a selected option whose handle contains
    "home delivery" and whose title contains no allow-list entry passes the
    rule as the specification words it, and fails the check. *)
Lemma C2_handle_match_is_rejected :
  spec_group_passes (option_group "Standard Ground" "fedex-home delivery") = true /\
  result (Extended.isShippingMethodEligible
            (Val [option_group "Standard Ground" "fedex-home delivery"]))
  = Return false.
Proof. split; reflexivity. Qed.

(** C2 (amended): the shipping check lower-cases the title and the handle
    of every selected option but matches only the title against the
    allow-list: the check returns whether every group has no selection or a
    title containing "home delivery" or "express saver", and the handle
    does not influence the result. *)
Theorem C2_shipping_matches_title_only :
  (forall groups : list DeliveryGroup,
      result (Extended.isShippingMethodEligible (Val groups)) =
      Return (forallb group_passes groups)) /\
  (forall (t h h' : nullable string) (rest : list DeliveryGroup),
      result (Extended.isShippingMethodEligible
                (Val ({| selectedDeliveryOption := Val {| title := t; handle := h |} |}
                      :: rest))) =
      result (Extended.isShippingMethodEligible
                (Val ({| selectedDeliveryOption := Val {| title := t; handle := h' |} |}
                      :: rest)))).
Proof.
  split.
  - intros groups. apply (isShippingMethodEligible_result (Val groups)).
  - intros t h h' rest. rewrite !isShippingMethodEligible_result. reflexivity.
Qed.

(* ------------------------------------------------------------------ *)
(** * Customer and location checks *)

Lemma strict_eq_string_true (v : JsValue) (s : string) :
  strict_eq_string v s = true <-> v = JString s.
Proof.
  destruct v; simpl; try (split; [discriminate | discriminate]).
  rewrite String.eqb_eq. split; [intros -> | intros [= ->]]; reflexivity.
Qed.

Lemma isCustomerEligible_result (customer : nullable Customer) :
  result (Base.isCustomerEligible customer) =
  Return (strict_eq_string (value_of (customer?.ccPilotEligible)) "true").
Proof.
  destruct customer as [| | c]; try reflexivity.
  simpl. destruct (strict_eq_string (value_of (ccPilotEligible c)) "true"); reflexivity.
Qed.

Lemma isCustomerEligible_same (customer : nullable Customer) :
  Extended.isCustomerEligible customer = Base.isCustomerEligible customer.
Proof. reflexivity. Qed.

Lemma pilot_enabled_iff (customer : nullable Customer) :
  strict_eq_string (value_of (customer?.ccPilotEligible)) "true" = true <->
  pilot_enabled customer.
Proof.
  rewrite strict_eq_string_true. unfold pilot_enabled. split.
  - destruct customer as [| | c]; simpl; try discriminate.
    destruct (ccPilotEligible c) as [| | a] eqn:E; simpl; try discriminate.
    intros H. exists c, a. auto.
  - intros (c & a & -> & E & V). simpl. rewrite E. exact V.
Qed.

(** C6: the customer check returns [true] exactly when the customer is
    present and carries the attribute [ccPilotEligible] whose value is the
    string "true"; it returns [false] exactly when the customer is absent,
    or the attribute is absent, or the value is anything else ("TRUE", "1",
    the empty string, a boolean, a number).  Both policies. *)
Theorem C6_customer_check_strict_true (customer : nullable Customer) :
  (result (Base.isCustomerEligible customer) = Return true <-> pilot_enabled customer) /\
  (result (Base.isCustomerEligible customer) = Return false <->
   truthy customer = false \/
   (exists c, customer = Val c /\ truthy (ccPilotEligible c) = false) \/
   (exists c a, customer = Val c /\ ccPilotEligible c = Val a /\
                value a <> JString "true")) /\
  Extended.isCustomerEligible customer = Base.isCustomerEligible customer /\
  Forall (fun v =>
            result (Base.isCustomerEligible
                      (Val {| ccPilotEligible := Val {| value := v |} |}))
            = Return false)
         [JString "TRUE"; JString "1"; JString ""; JString "True";
          JBool true; JNumber 1%float; JNull; JUndefined].
Proof.
  split; [| split; [| split]].
  - rewrite isCustomerEligible_result, <- pilot_enabled_iff.
    split; [intros [= ->] | intros ->]; reflexivity.
  - rewrite isCustomerEligible_result. split.
    + intros [= H].
      destruct customer as [| | c]; [left; reflexivity | left; reflexivity |].
      right. destruct (ccPilotEligible c) as [| | a] eqn:E.
      * left. exists c. rewrite E. auto.
      * left. exists c. rewrite E. auto.
      * right. exists c, a. repeat split; trivial.
        intros V. simpl in H. rewrite E in H. simpl in H. rewrite V in H. discriminate.
    + intros [H | [(c & -> & H) | (c & a & -> & E & V)]].
      * destruct customer; [reflexivity | reflexivity | discriminate].
      * simpl. destruct (ccPilotEligible c); [reflexivity | reflexivity | discriminate].
      * simpl. rewrite E. simpl.
        destruct (strict_eq_string (value a) "true") eqn:S; [| reflexivity].
        apply strict_eq_string_true in S. contradiction.
  - reflexivity.
  - repeat constructor.
Qed.

Lemma isLocationEligible_absent (pc : nullable PurchasingCompany) :
  truthy pc = false -> result (Extended.isLocationEligible pc) = Return true.
Proof. destruct pc; [reflexivity | reflexivity | discriminate]. Qed.

Lemma isLocationEligible_present (c : PurchasingCompany) :
  result (Extended.isLocationEligible (Val c)) =
  Return (strict_eq_string
            (value_of ((location c)?.Location.ccLocationEligible)) "true").
Proof.
  simpl. destruct (location c) as [| | loc]; try reflexivity. simpl.
  destruct (strict_eq_string (value_of (Location.ccLocationEligible loc)) "true");
    reflexivity.
Qed.

Lemma location_enabled_iff (loc : Location.t) :
  strict_eq_string (value_of (Location.ccLocationEligible loc)) "true" = true <->
  location_enabled loc.
Proof.
  rewrite strict_eq_string_true. unfold location_enabled. split.
  - destruct (Location.ccLocationEligible loc) as [| | a]; simpl; try discriminate.
    intros H. exists a. auto.
  - intros (a & -> & V). exact V.
Qed.

(** C7: the location check passes when [purchasingCompany] is absent; for
    a present company it fails when [location] is absent, and otherwise it
    passes exactly when the location's [ccLocationEligible] attribute has the
    value "true" (and fails in every other case). *)
Theorem C7_location_check_defaults :
  (forall pc : nullable PurchasingCompany,
      truthy pc = false ->
      result (Extended.isLocationEligible pc) = Return true) /\
  (forall c : PurchasingCompany,
      truthy (location c) = false ->
      result (Extended.isLocationEligible (Val c)) = Return false) /\
  (forall (c : PurchasingCompany) (loc : Location.t),
      location c = Val loc ->
      (result (Extended.isLocationEligible (Val c)) = Return true <->
       location_enabled loc) /\
      (result (Extended.isLocationEligible (Val c)) = Return false <->
       ~ location_enabled loc)).
Proof.
  split; [| split].
  - exact isLocationEligible_absent.
  - intros c H. rewrite isLocationEligible_present.
    destruct (location c); [reflexivity | reflexivity | discriminate].
  - intros c loc E. rewrite isLocationEligible_present, E. simpl.
    rewrite <- location_enabled_iff.
    destruct (strict_eq_string (value_of (Location.ccLocationEligible loc)) "true").
    + split; split; trivial; try discriminate. intros H. contradiction H. reflexivity.
    + split; split; trivial; try discriminate.
Qed.

Lemma C7_location_check_witness :
  result (Extended.isLocationEligible Undefined) = Return true /\
  result (Extended.isLocationEligible (Val {| location := Null |})) = Return false /\
  result (Extended.isLocationEligible
            (Val {| location :=
                      Val {| Location.id := Val "loc-1";
                             Location.name := Val "Dock";
                             Location.ccLocationEligible := metafield "true" |} |}))
  = Return true.
Proof.
  destruct C7_location_check_defaults as [H1 [H2 H3]].
  split; [| split].
  - apply (H1 Undefined). reflexivity.
  - apply (H2 {| location := Null |}). reflexivity.
  - eapply (H3 {| location := Val _ |}); [reflexivity |].
    exists {| value := JString "true" |}. split; reflexivity.
Defined.

(* ------------------------------------------------------------------ *)
(** * Parcel check *)

Lemma base_parcel_single (m : Merchandise) (p : Product.t) :
  __typename m = Val "ProductVariant" ->
  product m = Val p ->
  no_disqualifying_flag p = true ->
  result (Base.isCartParcelEligible (Val [{| merchandise := Val m |}])) =
  Return (negb (to_boolean (weight m) && gt (weight m) PARCEL_WEIGHT_THRESHOLD_LBS)).
Proof.
  intros T P F. apply andb_prop in F. destruct F as [F1 F2].
  apply negb_true_iff in F1, F2.
  unfold Base.isCartParcelEligible.
  cbn [truthy negb or_else length Nat.eqb orb Base.parcel_loop merchandise read].
  rewrite result_bind. cbn [ret result snd].
  rewrite T. cbn [field_eq_string]. rewrite String.eqb_refl. cbn [negb].
  rewrite P. cbn [read]. rewrite result_bind. cbn [ret result snd].
  rewrite F1, F2.
  destruct (to_boolean (weight m) && gt (weight m) PARCEL_WEIGHT_THRESHOLD_LBS);
    reflexivity.
Qed.

Lemma extended_parcel_single (m : Merchandise) (p : Product.t) :
  __typename m = Val "ProductVariant" ->
  product m = Val p ->
  result (Extended.isCartParcelEligible (Val [{| merchandise := Val m |}])) =
  Return (negb (is_null (weight m) || is_undefined (weight m) ||
                strict_eq_number (weight m) 0%float ||
                gt (weight m) PARCEL_WEIGHT_THRESHOLD_LBS)).
Proof.
  intros T P.
  unfold Extended.isCartParcelEligible.
  cbn [truthy negb or_else length Nat.eqb orb Extended.parcel_loop merchandise read].
  rewrite result_bind. cbn [ret result snd].
  rewrite T. cbn [field_eq_string]. rewrite String.eqb_refl. cbn [negb].
  cbv zeta. rewrite P.
  destruct (is_null (weight m) || is_undefined (weight m) ||
            strict_eq_number (weight m) 0%float).
  - reflexivity.
  - cbn [orb]. destruct (gt (weight m) PARCEL_WEIGHT_THRESHOLD_LBS); reflexivity.
Qed.

Lemma absent_flags_do_not_disqualify (p : Product.t) :
  truthy (Product.requiresLtl p) = false ->
  truthy (Product.isParcelEligible p) = false ->
  no_disqualifying_flag p = true.
Proof.
  unfold no_disqualifying_flag.
  destruct (Product.requiresLtl p), (Product.isParcelEligible p);
    simpl; intros; (reflexivity || discriminate).
Qed.

(** C3: for a single-line cart whose line is a [ProductVariant] with its
    product present and neither flag set, a weight that is absent, [null]
    or [0] passes the base policy's parcel check and fails the extended
    policy's. *)
Theorem C3_parcel_checks_diverge_on_missing_weight
    (m : Merchandise) (p : Product.t) :
  __typename m = Val "ProductVariant" ->
  product m = Val p ->
  truthy (Product.requiresLtl p) = false ->
  truthy (Product.isParcelEligible p) = false ->
  weight m = Undefined \/ weight m = Null \/ weight m = Val 0%float ->
  result (Base.isCartParcelEligible (Val [{| merchandise := Val m |}])) = Return true /\
  result (Extended.isCartParcelEligible (Val [{| merchandise := Val m |}])) = Return false.
Proof.
  intros T P F1 F2 W. split.
  - rewrite (@base_parcel_single m p T P (@absent_flags_do_not_disqualify p F1 F2)).
    destruct W as [-> | [-> | ->]]; reflexivity.
  - rewrite (@extended_parcel_single m p T P).
    destruct W as [-> | [-> | ->]]; reflexivity.
Qed.

Lemma C3_parcel_checks_diverge_witness :
  (result (Base.isCartParcelEligible (Val [variant_line Undefined (Val plain_product)]))
   = Return true /\
   result (Extended.isCartParcelEligible (Val [variant_line Undefined (Val plain_product)]))
   = Return false) /\
  (result (Base.isCartParcelEligible
             (Val [variant_line (Val 0%float) (Val plain_product)]))
   = Return true /\
   result (Extended.isCartParcelEligible
             (Val [variant_line (Val 0%float) (Val plain_product)]))
   = Return false).
Proof.
  split.
  - apply (@C3_parcel_checks_diverge_on_missing_weight
             {| __typename := Val "ProductVariant"; weight := Undefined;
                product := Val plain_product |} plain_product);
      try reflexivity. left; reflexivity.
  - apply (@C3_parcel_checks_diverge_on_missing_weight
             {| __typename := Val "ProductVariant"; weight := Val 0%float;
                product := Val plain_product |} plain_product);
      try reflexivity. right; right; reflexivity.
Defined.

(** C8: the threshold constant is 150 and the comparison is a strict
    greater-than.  In the base policy a [ProductVariant] line whose product
    is present and carries no disqualifying flag passes the parcel check at
    weight 150 and fails it at weight 151.  In the extended policy a
    [ProductVariant] line whose product is present, whatever its flags,
    passes at weight 150 and fails at weight 151.  More generally the check
    returns whether [w] is not strictly greater than the threshold, for every
    truthy number [w] in the base policy and every number [w] that is not
    zero in the extended policy. *)
Theorem C8_threshold_is_strict (p : Product.t) :
  PARCEL_WEIGHT_THRESHOLD_LBS = 150%float /\
  (no_disqualifying_flag p = true ->
   result (Base.isCartParcelEligible (Val [variant_line (Val 150%float) (Val p)]))
   = Return true /\
   result (Base.isCartParcelEligible (Val [variant_line (Val 151%float) (Val p)]))
   = Return false /\
   (forall w : float,
       number_truthy w = true ->
       result (Base.isCartParcelEligible (Val [variant_line (Val w) (Val p)]))
       = Return (negb (PrimFloat.ltb PARCEL_WEIGHT_THRESHOLD_LBS w)))) /\
  result (Extended.isCartParcelEligible (Val [variant_line (Val 150%float) (Val p)]))
  = Return true /\
  result (Extended.isCartParcelEligible (Val [variant_line (Val 151%float) (Val p)]))
  = Return false /\
  (forall w : float,
      PrimFloat.eqb w 0%float = false ->
      result (Extended.isCartParcelEligible (Val [variant_line (Val w) (Val p)]))
      = Return (negb (PrimFloat.ltb PARCEL_WEIGHT_THRESHOLD_LBS w))).
Proof.
  assert (E : forall w,
             result (Extended.isCartParcelEligible (Val [variant_line (Val w) (Val p)])) =
             Return (negb (PrimFloat.eqb w 0%float ||
                           PrimFloat.ltb PARCEL_WEIGHT_THRESHOLD_LBS w))).
  { intros w. unfold variant_line.
    rewrite (@extended_parcel_single
               {| __typename := Val "ProductVariant"; weight := Val w; product := Val p |}
               p eq_refl eq_refl).
    reflexivity. }
  split; [reflexivity |].
  split.
  - intros F.
    assert (B : forall w,
               result (Base.isCartParcelEligible (Val [variant_line (Val w) (Val p)])) =
               Return (negb (number_truthy w &&
                             PrimFloat.ltb PARCEL_WEIGHT_THRESHOLD_LBS w))).
    { intros w. unfold variant_line.
      rewrite (@base_parcel_single
                 {| __typename := Val "ProductVariant"; weight := Val w;
                    product := Val p |}
                 p eq_refl eq_refl F).
      reflexivity. }
    split; [rewrite B; reflexivity |].
    split; [rewrite B; reflexivity |].
    intros w H. rewrite B, H. reflexivity.
  - split; [rewrite E; reflexivity |].
    split; [rewrite E; reflexivity |].
    intros w H. rewrite E, H. reflexivity.
Qed.

Lemma C8_threshold_witness :
  (result (Base.isCartParcelEligible
             (Val [variant_line (Val 150%float) (Val plain_product)])) = Return true /\
   result (Base.isCartParcelEligible
             (Val [variant_line (Val 151%float) (Val plain_product)])) = Return false) /\
  (result (Extended.isCartParcelEligible
             (Val [variant_line (Val 150%float)
                     (Val {| Product.id := Val "p2";
                             Product.requiresLtl := metafield "true";
                             Product.isParcelEligible := metafield "false" |})]))
   = Return true /\
   result (Extended.isCartParcelEligible
             (Val [variant_line (Val 151%float)
                     (Val {| Product.id := Val "p2";
                             Product.requiresLtl := metafield "true";
                             Product.isParcelEligible := metafield "false" |})]))
   = Return false).
Proof.
  split.
  - destruct (C8_threshold_is_strict plain_product) as (_ & B & _).
    destruct (B eq_refl) as (B150 & B151 & _). split; assumption.
  - destruct (C8_threshold_is_strict
                {| Product.id := Val "p2";
                   Product.requiresLtl := metafield "true";
                   Product.isParcelEligible := metafield "false" |})
      as (_ & _ & E150 & E151 & _).
    split; assumption.
Defined.

(* ------------------------------------------------------------------ *)
(** * Decision composition *)

Lemma base_run_result (input : Input) (cc : PaymentMethod.t) :
  Base.findCreditCardPaymentMethod (paymentMethods input) = Val cc ->
  result (Base.cartPaymentMethodsTransformRun input) =
  match result (Base.isCustomerEligible (customer_of input)) with
  | Return true =>
      match result (Base.isCartParcelEligible (Val (lines_of input))) with
      | Return true => Return NO_CHANGES
      | Return false => Return (hide cc)
      | Throw e => Throw e
      end
  | Return false => Return (hide cc)
  | Throw e => Throw e
  end.
Proof.
  intros F. unfold Base.cartPaymentMethodsTransformRun. cbv zeta.
  rewrite !result_log_then, F, !result_log_then, result_bind.
  fold (customer_of input).
  destruct (result (Base.isCustomerEligible (customer_of input))) as [[|] | e];
    cbn [negb]; trivial.
  rewrite result_log_then, result_bind. fold (lines_of input).
  destruct (result (Base.isCartParcelEligible (Val (lines_of input)))) as [[|] | e];
    cbn [negb]; trivial.
Qed.

Lemma extended_run_result (input : Input) (cc : PaymentMethod.t) :
  Extended.findCreditCardPaymentMethod (paymentMethods input) = Val cc ->
  result (Extended.cartPaymentMethodsTransformRun input) =
  match result (Extended.isCustomerEligible (customer_of input)) with
  | Return true =>
      match result (Extended.isLocationEligible (purchasingCompany_of input)) with
      | Return true =>
          match result (Extended.isCartParcelEligible (Val (lines_of input))) with
          | Return true =>
              match result (Extended.isShippingMethodEligible
                              (Val (or_else ((cart input)?.deliveryGroups) []))) with
              | Return true => Return NO_CHANGES
              | Return false => Return (hide cc)
              | Throw e => Throw e
              end
          | Return false => Return (hide cc)
          | Throw e => Throw e
          end
      | Return false => Return (hide cc)
      | Throw e => Throw e
      end
  | Return false => Return (hide cc)
  | Throw e => Throw e
  end.
Proof.
  intros F. unfold Extended.cartPaymentMethodsTransformRun. cbv zeta.
  rewrite !result_log_then, F, !result_log_then, result_bind.
  fold (customer_of input).
  destruct (result (Extended.isCustomerEligible (customer_of input))) as [[|] | e];
    cbn [negb]; trivial.
  rewrite result_log_then, result_bind. fold (purchasingCompany_of input).
  destruct (result (Extended.isLocationEligible (purchasingCompany_of input)))
    as [[|] | e]; cbn [negb]; trivial.
  rewrite result_log_then, result_bind. fold (lines_of input).
  destruct (result (Extended.isCartParcelEligible (Val (lines_of input))))
    as [[|] | e]; cbn [negb]; trivial.
  rewrite result_log_then, result_bind.
  destruct (result (Extended.isShippingMethodEligible
                      (Val (or_else ((cart input)?.deliveryGroups) []))))
    as [[|] | e]; cbn [negb]; trivial.
Qed.

Lemma base_run_no_target (input : Input) :
  truthy (Base.findCreditCardPaymentMethod (paymentMethods input)) = false ->
  Base.cartPaymentMethodsTransformRun input =
  (preamble ++ ["No credit card payment method found"], Return NO_CHANGES).
Proof.
  intros F. unfold Base.cartPaymentMethodsTransformRun. cbv zeta.
  destruct (Base.findCreditCardPaymentMethod (paymentMethods input));
    [reflexivity | reflexivity | discriminate].
Qed.

Lemma extended_run_no_target (input : Input) :
  truthy (Extended.findCreditCardPaymentMethod (paymentMethods input)) = false ->
  Extended.cartPaymentMethodsTransformRun input =
  (preamble ++ ["No credit card payment method found"], Return NO_CHANGES).
Proof.
  intros F. unfold Extended.cartPaymentMethodsTransformRun. cbv zeta.
  destruct (Extended.findCreditCardPaymentMethod (paymentMethods input));
    [reflexivity | reflexivity | discriminate].
Qed.



Lemma base_parcel_loop_returns (ls : list CartLine) :
  Forall line_well_formed ls ->
  exists b : bool, result (Base.parcel_loop ls) = Return b.
Proof.
  induction 1 as [| line ls (m & p & Hm & Hp) _ IH]; [exists true; reflexivity |].
  cbn [Base.parcel_loop]. rewrite Hm. cbn [read]. rewrite result_bind. cbn [ret result snd].
  destruct (negb (field_eq_string (__typename m) "ProductVariant")).
  { exists false. reflexivity. }
  rewrite Hp. cbn [read]. rewrite result_bind. cbn [ret result snd].
  destruct (strict_eq_string (value_of (Product.requiresLtl p)) "true").
  { exists false. reflexivity. }
  destruct (strict_eq_string (value_of (Product.isParcelEligible p)) "false").
  { exists false. reflexivity. }
  destruct (to_boolean (weight m) && gt (weight m) PARCEL_WEIGHT_THRESHOLD_LBS).
  { exists false. reflexivity. }
  exact IH.
Qed.

Lemma extended_parcel_loop_returns (ls : list CartLine) :
  Forall line_well_formed ls ->
  exists b : bool, result (Extended.parcel_loop ls) = Return b.
Proof.
  induction 1 as [| line ls (m & p & Hm & Hp) _ IH]; [exists true; reflexivity |].
  cbn [Extended.parcel_loop]. rewrite Hm. cbn [read]. rewrite result_bind.
  cbn [ret result snd].
  destruct (negb (field_eq_string (__typename m) "ProductVariant")).
  { exists false. reflexivity. }
  cbv zeta. rewrite Hp.
  destruct (is_null (weight m) || is_undefined (weight m) ||
            strict_eq_number (weight m) 0%float).
  { exists false. reflexivity. }
  destruct (gt (weight m) PARCEL_WEIGHT_THRESHOLD_LBS).
  { exists false. reflexivity. }
  exact IH.
Qed.

Lemma base_parcel_returns (ls : list CartLine) :
  Forall line_well_formed ls ->
  exists b : bool, result (Base.isCartParcelEligible (Val ls)) = Return b.
Proof.
  intros W. destruct ls as [| line ls]; [exists true; reflexivity |].
  apply (base_parcel_loop_returns W).
Qed.

Lemma extended_parcel_returns (ls : list CartLine) :
  Forall line_well_formed ls ->
  exists b : bool, result (Extended.isCartParcelEligible (Val ls)) = Return b.
Proof.
  intros W. destruct ls as [| line ls]; [exists true; reflexivity |].
  apply (extended_parcel_loop_returns W).
Qed.

Lemma decision_no_change (target : nullable PaymentMethod.t) :
  decision_for target NO_CHANGES.
Proof. left. reflexivity. Qed.

Lemma decision_hide (cc : PaymentMethod.t) : decision_for (Val cc) (hide cc).
Proof. right. exists cc. split; reflexivity. Qed.

Lemma base_run_shape (input : Input) (r : Result) :
  result (Base.cartPaymentMethodsTransformRun input) = Return r ->
  decision_for (Base.findCreditCardPaymentMethod (paymentMethods input)) r.
Proof.
  destruct (Base.findCreditCardPaymentMethod (paymentMethods input)) as [| | cc] eqn:F.
  - rewrite base_run_no_target by (rewrite F; reflexivity).
    intros [= <-]. apply decision_no_change.
  - rewrite base_run_no_target by (rewrite F; reflexivity).
    intros [= <-]. apply decision_no_change.
  - rewrite (base_run_result input F).
    destruct (result (Base.isCustomerEligible (customer_of input))) as [[|] | e];
      [| intros [= <-]; apply decision_hide | discriminate].
    destruct (result (Base.isCartParcelEligible (Val (lines_of input)))) as [[|] | e];
      [intros [= <-]; apply decision_no_change
      | intros [= <-]; apply decision_hide
      | discriminate].
Qed.

Lemma extended_run_shape (input : Input) (r : Result) :
  result (Extended.cartPaymentMethodsTransformRun input) = Return r ->
  decision_for (Extended.findCreditCardPaymentMethod (paymentMethods input)) r.
Proof.
  destruct (Extended.findCreditCardPaymentMethod (paymentMethods input))
    as [| | cc] eqn:F.
  - rewrite extended_run_no_target by (rewrite F; reflexivity).
    intros [= <-]. apply decision_no_change.
  - rewrite extended_run_no_target by (rewrite F; reflexivity).
    intros [= <-]. apply decision_no_change.
  - rewrite (extended_run_result input F).
    destruct (result (Extended.isCustomerEligible (customer_of input))) as [[|] | e];
      [| intros [= <-]; apply decision_hide | discriminate].
    destruct (result (Extended.isLocationEligible (purchasingCompany_of input)))
      as [[|] | e]; [| intros [= <-]; apply decision_hide | discriminate].
    destruct (result (Extended.isCartParcelEligible (Val (lines_of input))))
      as [[|] | e]; [| intros [= <-]; apply decision_hide | discriminate].
    destruct (result (Extended.isShippingMethodEligible
                        (Val (or_else ((cart input)?.deliveryGroups) []))))
      as [[|] | e];
      [intros [= <-]; apply decision_no_change
      | intros [= <-]; apply decision_hide
      | discriminate].
Qed.

Lemma base_run_returns (input : Input) :
  Forall line_well_formed (lines_of input) ->
  exists r : Result, result (Base.cartPaymentMethodsTransformRun input) = Return r.
Proof.
  intros W.
  destruct (Base.findCreditCardPaymentMethod (paymentMethods input)) as [| | cc] eqn:F.
  - rewrite base_run_no_target by (rewrite F; reflexivity). eexists; reflexivity.
  - rewrite base_run_no_target by (rewrite F; reflexivity). eexists; reflexivity.
  - rewrite (base_run_result input F), isCustomerEligible_result.
    destruct (base_parcel_returns W) as [b ->].
    destruct (strict_eq_string _ _); [| eexists; reflexivity].
    destruct b; eexists; reflexivity.
Qed.

Lemma extended_run_returns (input : Input) :
  Forall line_well_formed (lines_of input) ->
  exists r : Result, result (Extended.cartPaymentMethodsTransformRun input) = Return r.
Proof.
  intros W.
  destruct (Extended.findCreditCardPaymentMethod (paymentMethods input))
    as [| | cc] eqn:F.
  - rewrite extended_run_no_target by (rewrite F; reflexivity). eexists; reflexivity.
  - rewrite extended_run_no_target by (rewrite F; reflexivity). eexists; reflexivity.
  - rewrite (extended_run_result input F), isCustomerEligible_same,
      isCustomerEligible_result, isShippingMethodEligible_result.
    destruct (extended_parcel_returns W) as [b ->].
    assert (L : exists l, result (Extended.isLocationEligible (purchasingCompany_of input))
                          = Return l).
    { destruct (purchasingCompany_of input) as [| | c].
      - exists true; reflexivity.
      - exists true; reflexivity.
      - rewrite isLocationEligible_present. eexists; reflexivity. }
    destruct L as [l ->].
    destruct (strict_eq_string _ _); [| eexists; reflexivity].
    destruct l; [| eexists; reflexivity].
    destruct b; [| eexists; reflexivity].
    destruct (forallb group_passes _); eexists; reflexivity.
Qed.

(** C5: whenever the evaluator of either policy returns a document, its
    operation list is empty or is the single [paymentMethodHide] carrying
    the id of the method the resolver selected; and it does return a
    document whenever every cart line has its [merchandise] and [product]
    objects. *)
Theorem C5_at_most_one_operation (input : Input) :
  (forall r : Result,
      result (Base.cartPaymentMethodsTransformRun input) = Return r ->
      decision_for (Base.findCreditCardPaymentMethod (paymentMethods input)) r /\
      length (operations r) <= 1) /\
  (forall r : Result,
      result (Extended.cartPaymentMethodsTransformRun input) = Return r ->
      decision_for (Extended.findCreditCardPaymentMethod (paymentMethods input)) r /\
      length (operations r) <= 1) /\
  (Forall line_well_formed (lines_of input) ->
   (exists r, result (Base.cartPaymentMethodsTransformRun input) = Return r) /\
   (exists r, result (Extended.cartPaymentMethodsTransformRun input) = Return r)).
Proof.
  assert (len : forall t r, decision_for t r -> length (operations r) <= 1).
  { intros t r [-> | (cc & _ & ->)]; simpl; lia. }
  split; [| split].
  - intros r H. apply base_run_shape in H. eauto.
  - intros r H. apply extended_run_shape in H. eauto.
  - intros W. split; [apply base_run_returns | apply extended_run_returns]; exact W.
Qed.

Lemma C5_at_most_one_operation_witness :
  decision_for
    (Extended.findCreditCardPaymentMethod (Val [gift_card; visa_credit_card]))
    (hide visa_credit_card) /\
  exists r,
    result (Base.cartPaymentMethodsTransformRun
              (b2c_input [visa_credit_card] (Val pilot_customer)
                 [variant_line (Val 50%float) (Val plain_product)] [])) = Return r.
Proof.
  split.
  - apply (C5_at_most_one_operation
             (b2c_input [gift_card; visa_credit_card] Undefined [] [])).
    reflexivity.
  - apply (C5_at_most_one_operation
             (b2c_input [visa_credit_card] (Val pilot_customer)
                [variant_line (Val 50%float) (Val plain_product)] [])).
    repeat constructor. exists {| __typename := Val "ProductVariant";
                                  weight := Val 50%float;
                                  product := Val plain_product |}, plain_product.
    split; reflexivity.
Defined.

Lemma base_run_customer_fails (input : Input) (cc : PaymentMethod.t) :
  Base.findCreditCardPaymentMethod (paymentMethods input) = Val cc ->
  result (Base.isCustomerEligible (customer_of input)) = Return false ->
  Base.cartPaymentMethodsTransformRun input =
  (preamble ++ "Customer data:" :: logs (Base.isCustomerEligible (customer_of input)) ++
   ["Customer not eligible - hiding CC payment method"; "Returning hide result:"],
   Return (hide cc)).
Proof.
  intros F C. rewrite (M_eq (Base.cartPaymentMethodsTransformRun input)).
  rewrite (base_run_result input F), C. f_equal.
  unfold Base.cartPaymentMethodsTransformRun. cbv zeta.
  rewrite !logs_log_then, F, !logs_log_then, logs_bind.
  fold (customer_of input). rewrite C. reflexivity.
Qed.

Lemma extended_run_customer_fails (input : Input) (cc : PaymentMethod.t) :
  Extended.findCreditCardPaymentMethod (paymentMethods input) = Val cc ->
  result (Extended.isCustomerEligible (customer_of input)) = Return false ->
  Extended.cartPaymentMethodsTransformRun input =
  (preamble ++ "Customer data:" ::
   logs (Extended.isCustomerEligible (customer_of input)) ++
   ["Customer not eligible - hiding CC payment method"; "Returning hide result:"],
   Return (hide cc)).
Proof.
  intros F C. rewrite (M_eq (Extended.cartPaymentMethodsTransformRun input)).
  rewrite (extended_run_result input F), C. f_equal.
  unfold Extended.cartPaymentMethodsTransformRun. cbv zeta.
  rewrite !logs_log_then, F, !logs_log_then, logs_bind.
  fold (customer_of input). rewrite C. reflexivity.
Qed.

(** C9: when a target is found and the customer check fails, the evaluator
    of either policy returns the single operation hiding the target, and
    logs nothing of the later checks: the cart's purchasing company, lines
    and delivery groups are never read, so two inputs with the same payment
    methods and the same customer get the same decision. *)
Theorem C9_customer_failure_hides_target (input : Input) (cc : PaymentMethod.t) :
  (Base.findCreditCardPaymentMethod (paymentMethods input) = Val cc ->
   result (Base.isCustomerEligible (customer_of input)) = Return false ->
   Base.cartPaymentMethodsTransformRun input =
   (preamble ++ "Customer data:" ::
    logs (Base.isCustomerEligible (customer_of input)) ++
    ["Customer not eligible - hiding CC payment method"; "Returning hide result:"],
    Return {| operations := [paymentMethodHide (PaymentMethod.id cc)] |}) /\
   forall input' : Input,
     paymentMethods input' = paymentMethods input ->
     customer_of input' = customer_of input ->
     result (Base.cartPaymentMethodsTransformRun input') =
     result (Base.cartPaymentMethodsTransformRun input)) /\
  (Extended.findCreditCardPaymentMethod (paymentMethods input) = Val cc ->
   result (Extended.isCustomerEligible (customer_of input)) = Return false ->
   Extended.cartPaymentMethodsTransformRun input =
   (preamble ++ "Customer data:" ::
    logs (Extended.isCustomerEligible (customer_of input)) ++
    ["Customer not eligible - hiding CC payment method"; "Returning hide result:"],
    Return {| operations := [paymentMethodHide (PaymentMethod.id cc)] |}) /\
   forall input' : Input,
     paymentMethods input' = paymentMethods input ->
     customer_of input' = customer_of input ->
     result (Extended.cartPaymentMethodsTransformRun input') =
     result (Extended.cartPaymentMethodsTransformRun input)).
Proof.
  split; intros F C; split.
  - apply (base_run_customer_fails input F C).
  - intros input' P' C'.
    rewrite (base_run_customer_fails input F C).
    rewrite <- P' in F. rewrite <- C' in C.
    rewrite (base_run_customer_fails input' F C). reflexivity.
  - apply (extended_run_customer_fails input F C).
  - intros input' P' C'.
    rewrite (extended_run_customer_fails input F C).
    rewrite <- P' in F. rewrite <- C' in C.
    rewrite (extended_run_customer_fails input' F C). reflexivity.
Qed.

Lemma C9_customer_failure_witness :
  Extended.cartPaymentMethodsTransformRun
    (b2c_input [visa_credit_card] Undefined [{| merchandise := Undefined |}]
       [option_group "Freight" "ltl"]) =
  (preamble ++
   ["Customer data:"; "No customer found - hiding CC";
    "Customer not eligible - hiding CC payment method"; "Returning hide result:"],
   Return {| operations := [paymentMethodHide (Val "pm1")] |}) /\
  result (Base.cartPaymentMethodsTransformRun
            (b2c_input [visa_credit_card] Undefined [{| merchandise := Undefined |}] []))
  = Return {| operations := [paymentMethodHide (Val "pm1")] |}.
Proof.
  split.
  - apply (C9_customer_failure_hides_target
             (b2c_input [visa_credit_card] Undefined [{| merchandise := Undefined |}]
                [option_group "Freight" "ltl"]) visa_credit_card); reflexivity.
  - apply (f_equal snd
             (proj1 (proj1 (C9_customer_failure_hides_target
                              (b2c_input [visa_credit_card] Undefined
                                 [{| merchandise := Undefined |}] [])
                              visa_credit_card) eq_refl eq_refl))).
Defined.

(* ------------------------------------------------------------------ *)
(** * Malformed cart lines *)

Lemma base_parcel_throws_on_missing_merchandise (line : CartLine) (rest : list CartLine) :
  merchandise line = Undefined ->
  result (Base.isCartParcelEligible (Val (line :: rest))) =
  Throw (TypeError "Cannot read properties of undefined (reading '__typename')").
Proof.
  intros H. unfold Base.isCartParcelEligible.
  cbn [truthy negb or_else length Nat.eqb orb Base.parcel_loop]. rewrite H. reflexivity.
Qed.

Lemma extended_parcel_throws_on_missing_merchandise
    (line : CartLine) (rest : list CartLine) :
  merchandise line = Undefined ->
  result (Extended.isCartParcelEligible (Val (line :: rest))) =
  Throw (TypeError "Cannot read properties of undefined (reading '__typename')").
Proof.
  intros H. unfold Extended.isCartParcelEligible.
  cbn [truthy negb or_else length Nat.eqb orb Extended.parcel_loop]. rewrite H.
  reflexivity.
Qed.

Lemma extended_parcel_throws_on_missing_product
    (line : CartLine) (rest : list CartLine) (m : Merchandise) :
  merchandise line = Val m ->
  __typename m = Val "ProductVariant" ->
  product m = Undefined ->
  weight m = Undefined ->
  result (Extended.isCartParcelEligible (Val (line :: rest))) =
  Throw (TypeError "Cannot read properties of undefined (reading 'id')").
Proof.
  intros H T P W. unfold Extended.isCartParcelEligible.
  cbn [truthy negb or_else length Nat.eqb orb Extended.parcel_loop].
  rewrite H. cbn [read]. rewrite result_bind. cbn [ret result snd].
  rewrite T, P, W. reflexivity.
Qed.

(** C10: the parcel check is partial.  With a target found and the customer
    check (and, in the extended policy, the location check) passed, a first
    cart line without [merchandise] makes the evaluator of either policy
    throw a [TypeError] on reading [__typename]; in the extended policy a
    first line that is a [ProductVariant] with neither product nor weight
    makes it throw on reading [product.id] for the log message. *)
Theorem C10_malformed_line_throws :
  (forall (input : Input) (cc : PaymentMethod.t) (line : CartLine) (rest : list CartLine),
      Base.findCreditCardPaymentMethod (paymentMethods input) = Val cc ->
      result (Base.isCustomerEligible (customer_of input)) = Return true ->
      lines_of input = line :: rest ->
      merchandise line = Undefined ->
      result (Base.cartPaymentMethodsTransformRun input) =
      Throw (TypeError "Cannot read properties of undefined (reading '__typename')")) /\
  (forall (input : Input) (cc : PaymentMethod.t) (line : CartLine) (rest : list CartLine),
      Extended.findCreditCardPaymentMethod (paymentMethods input) = Val cc ->
      result (Extended.isCustomerEligible (customer_of input)) = Return true ->
      result (Extended.isLocationEligible (purchasingCompany_of input)) = Return true ->
      lines_of input = line :: rest ->
      merchandise line = Undefined ->
      result (Extended.cartPaymentMethodsTransformRun input) =
      Throw (TypeError "Cannot read properties of undefined (reading '__typename')")) /\
  (forall (input : Input) (cc : PaymentMethod.t) (line : CartLine) (rest : list CartLine)
          (m : Merchandise),
      Extended.findCreditCardPaymentMethod (paymentMethods input) = Val cc ->
      result (Extended.isCustomerEligible (customer_of input)) = Return true ->
      result (Extended.isLocationEligible (purchasingCompany_of input)) = Return true ->
      lines_of input = line :: rest ->
      merchandise line = Val m ->
      __typename m = Val "ProductVariant" ->
      product m = Undefined ->
      weight m = Undefined ->
      result (Extended.cartPaymentMethodsTransformRun input) =
      Throw (TypeError "Cannot read properties of undefined (reading 'id')")).
Proof.
  split; [| split].
  - intros input cc line rest F C L H.
    rewrite (base_run_result input F), C, L.
    rewrite (@base_parcel_throws_on_missing_merchandise line rest H). reflexivity.
  - intros input cc line rest F C P L H.
    rewrite (extended_run_result input F), C, P, L.
    rewrite (@extended_parcel_throws_on_missing_merchandise line rest H). reflexivity.
  - intros input cc line rest m F C P L H T Pr W.
    rewrite (extended_run_result input F), C, P, L.
    rewrite (@extended_parcel_throws_on_missing_product line rest m H T Pr W).
    reflexivity.
Qed.

Lemma C10_malformed_line_witness :
  result (Base.cartPaymentMethodsTransformRun
            (b2c_input [visa_credit_card] (Val pilot_customer)
               [{| merchandise := Undefined |}] []))
  = Throw (TypeError "Cannot read properties of undefined (reading '__typename')") /\
  result (Extended.cartPaymentMethodsTransformRun
            (b2c_input [visa_credit_card] (Val pilot_customer)
               [{| merchandise := Undefined |}] []))
  = Throw (TypeError "Cannot read properties of undefined (reading '__typename')") /\
  result (Extended.cartPaymentMethodsTransformRun
            (b2c_input [visa_credit_card] (Val pilot_customer)
               [variant_line Undefined Undefined] []))
  = Throw (TypeError "Cannot read properties of undefined (reading 'id')").
Proof.
  destruct C10_malformed_line_throws as [H1 [H2 H3]].
  split; [| split].
  - apply (H1 _ visa_credit_card {| merchandise := Undefined |} []); reflexivity.
  - apply (H2 _ visa_credit_card {| merchandise := Undefined |} []); reflexivity.
  - apply (H3 _ visa_credit_card (variant_line Undefined Undefined) []
              {| __typename := Val "ProductVariant"; weight := Undefined;
                 product := Undefined |}); reflexivity.
Defined.

(* ------------------------------------------------------------------ *)
(** * More on the Target Resolver *)

Section Find.

Variable A : Type.
Variable p : A -> bool.

Lemma array_find_first (l : list A) (x : A) :
  array_find p l = Val x <->
  exists pre post : list A,
    l = pre ++ x :: post /\ p x = true /\ forallb (fun y => negb (p y)) pre = true.
Proof.
  split.
  - induction l as [| y l IH]; simpl; [discriminate |].
    destruct (p y) eqn:Hy.
    + intros [= ->]. exists [], l. auto.
    + intros H. destruct (IH H) as (pre & post & -> & Hx & Hpre).
      exists (y :: pre), post. simpl. rewrite Hy. auto.
  - intros (pre & post & -> & Hx & Hpre).
    induction pre as [| y pre IH]; simpl in *.
    + rewrite Hx. reflexivity.
    + apply andb_prop in Hpre. destruct Hpre as [Hy Hpre].
      apply negb_true_iff in Hy. rewrite Hy. auto.
Qed.

Lemma array_find_none (l : list A) :
  array_find p l = Undefined <-> forallb (fun y => negb (p y)) l = true.
Proof.
  induction l as [| y l IH]; simpl; [tauto |].
  destruct (p y); simpl; [| exact IH].
  split; discriminate.
Qed.

Lemma array_find_never_null (l : list A) : array_find p l <> Null.
Proof.
  induction l as [| y l IH]; simpl; [discriminate |].
  destruct (p y); [discriminate | exact IH].
Qed.

End Find.

Lemma base_find_unfold (methods : list PaymentMethod.t) :
  Base.findCreditCardPaymentMethod (Val methods) = array_find base_matches methods.
Proof. reflexivity. Qed.

Lemma extended_find_unfold (methods : list PaymentMethod.t) :
  Extended.findCreditCardPaymentMethod (Val methods) = array_find extended_matches methods.
Proof. reflexivity. Qed.

(** X1: both resolvers implement a first-match policy.  A method is returned
    exactly when the list splits into a prefix in which no method matches,
    the method itself, which matches, and an arbitrary rest; [undefined] is
    returned exactly when the list is present and holds no match; [null] is
    returned exactly when the list itself is absent or [null]. *)
Theorem X1_resolver_first_match
    (methods : nullable (list PaymentMethod.t)) (m : PaymentMethod.t) :
  (Base.findCreditCardPaymentMethod methods = Val m <->
   exists l pre post,
     methods = Val l /\ l = pre ++ m :: post /\ base_matches m = true /\
     forallb (fun y => negb (base_matches y)) pre = true) /\
  (Extended.findCreditCardPaymentMethod methods = Val m <->
   exists l pre post,
     methods = Val l /\ l = pre ++ m :: post /\ extended_matches m = true /\
     forallb (fun y => negb (extended_matches y)) pre = true) /\
  (Base.findCreditCardPaymentMethod methods = Undefined <->
   exists l, methods = Val l /\ forallb (fun y => negb (base_matches y)) l = true) /\
  (Extended.findCreditCardPaymentMethod methods = Undefined <->
   exists l, methods = Val l /\ forallb (fun y => negb (extended_matches y)) l = true) /\
  (Base.findCreditCardPaymentMethod methods = Null <-> truthy methods = false) /\
  (Extended.findCreditCardPaymentMethod methods = Null <-> truthy methods = false).
Proof.
  destruct methods as [| | l].
  - repeat split; try discriminate; try reflexivity;
      intros H; decompose record H; discriminate.
  - repeat split; try discriminate; try reflexivity;
      intros H; decompose record H; discriminate.
  - rewrite base_find_unfold, extended_find_unfold.
    rewrite !array_find_first, !array_find_none.
    repeat split.
    + intros (pre & post & H). exists l, pre, post. tauto.
    + intros (l' & pre & post & [= <-] & H). exists pre, post. exact H.
    + intros (pre & post & H). exists l, pre, post. tauto.
    + intros (l' & pre & post & [= <-] & H). exists pre, post. exact H.
    + intros H. exists l. auto.
    + intros (l' & [= <-] & H). exact H.
    + intros H. exists l. auto.
    + intros (l' & [= <-] & H). exact H.
    + intros H. destruct (array_find_never_null _ _ H).
    + discriminate.
    + intros H. destruct (array_find_never_null _ _ H).
    + discriminate.
Qed.

Lemma prefix_append (a s : string) :
  String.prefix a s = true <-> exists post : string, s = (a ++ post)%string.
Proof.
  revert a. induction s as [| c s IH]; intros [| d a]; simpl.
  - split; [exists ""%string; reflexivity | reflexivity].
  - split; [discriminate | intros (post & [=])].
  - split; [exists (String c s); reflexivity | reflexivity].
  - destruct (ascii_dec d c) as [-> | N].
    + rewrite IH. split.
      * intros (post & ->). exists post. reflexivity.
      * intros (post & [= ->]). exists post. reflexivity.
    + split; [discriminate | intros (post & [= E _]); congruence].
Qed.

Lemma includes_spec (s sub : string) :
  includes s sub = true <->
  exists pre post : string, s = (pre ++ sub ++ post)%string.
Proof.
  induction s as [| c s IH]; cbn [includes].
  - rewrite orb_false_r, prefix_append. split.
    + intros (post & E). exists ""%string, post. exact E.
    + intros ([| d pre] & post & E); [exists post; exact E | discriminate E].
  - rewrite orb_true_iff, prefix_append, IH. split.
    + intros [(post & E) | (pre & post & ->)].
      * exists ""%string, post. exact E.
      * exists (String c pre), post. reflexivity.
    + intros ([| d pre] & post & E).
      * left. exists post. exact E.
      * right. injection E as -> ->. exists pre, post. reflexivity.
Qed.

Lemma string_app_assoc (a b c : string) :
  ((a ++ b) ++ c)%string = (a ++ b ++ c)%string.
Proof. induction a as [| x a IH]; simpl; [| rewrite IH]; reflexivity. Qed.

Lemma includes_tail (s a b : string) :
  includes s (a ++ b) = true -> includes s b = true.
Proof.
  rewrite !includes_spec. intros (pre & post & ->).
  exists (pre ++ a)%string, post. rewrite !string_app_assoc. reflexivity.
Qed.

Lemma array_find_ext (A : Type) (p q : A -> bool) (l : list A) :
  (forall x, p x = q x) -> array_find p l = array_find q l.
Proof.
  intros E. induction l as [| x l IH]; simpl; [| rewrite E, IH]; reflexivity.
Qed.

(** X2: the entry "mastercard" of the base resolver's allow-list never
    changes the outcome: every string containing "mastercard" contains
    "card", so the base resolver selects the same method as the resolver
    with the three entries "credit", "card" and "visa". *)
Theorem X2_mastercard_entry_is_redundant (methods : list PaymentMethod.t) :
  (forall s : string, includes s "mastercard" = true -> includes s "card" = true) /\
  Base.findCreditCardPaymentMethod (Val methods) =
  array_find
    (name_matches (fun nameLower =>
       includes nameLower "credit" || includes nameLower "card" ||
       includes nameLower "visa"))
    methods.
Proof.
  assert (T : forall s, includes s "mastercard" = true -> includes s "card" = true).
  { intros s. apply (includes_tail s "master" "card"). }
  split; [exact T |].
  rewrite base_find_unfold. apply array_find_ext. intros m.
  unfold base_matches, name_matches.
  destruct (PaymentMethod.name m) as [| | n]; try reflexivity.
  f_equal.
  destruct (includes (toLowerCase n) "mastercard") eqn:Mc.
  - rewrite (T _ Mc). rewrite !orb_true_r. reflexivity.
  - rewrite orb_false_r. reflexivity.
Qed.

Lemma name_matches_named (p : string -> bool) (m : PaymentMethod.t) :
  name_matches p m = true ->
  exists n : string,
    PaymentMethod.name m = Val n /\ n <> ""%string /\ p (toLowerCase n) = true.
Proof.
  unfold name_matches. destruct (PaymentMethod.name m) as [| | n]; try discriminate.
  intros H. apply andb_prop in H. destruct H as [H1 H2].
  exists n. repeat split; trivial.
  intros ->. discriminate H1.
Qed.

Lemma extended_matches_no_gift (m : PaymentMethod.t) :
  extended_matches m = true -> mentions_gift m = false.
Proof.
  intros H. destruct (mentions_gift m) eqn:G; [| reflexivity].
  unfold extended_matches in H. rewrite (gift_is_denied m _ G) in H. discriminate.
Qed.

Lemma base_hidden_is_target (input : Input) (r : Result) (i : nullable string) :
  result (Base.cartPaymentMethodsTransformRun input) = Return r ->
  In (paymentMethodHide i) (operations r) ->
  exists cc, Base.findCreditCardPaymentMethod (paymentMethods input) = Val cc /\
             PaymentMethod.id cc = i.
Proof.
  intros H I. apply base_run_shape in H. destruct H as [E | (cc & F & E)].
  - rewrite E in I. destruct I.
  - rewrite E in I. destruct I as [[= <-] | []]. exists cc. auto.
Qed.

Lemma extended_hidden_is_target (input : Input) (r : Result) (i : nullable string) :
  result (Extended.cartPaymentMethodsTransformRun input) = Return r ->
  In (paymentMethodHide i) (operations r) ->
  exists cc, Extended.findCreditCardPaymentMethod (paymentMethods input) = Val cc /\
             PaymentMethod.id cc = i.
Proof.
  intros H I. apply extended_run_shape in H. destruct H as [E | (cc & F & E)].
  - rewrite E in I. destruct I.
  - rewrite E in I. destruct I as [[= <-] | []]. exists cc. auto.
Qed.

(** X3: the evaluator only ever hides a method of the input list.  When a
    returned document holds [paymentMethodHide i], the list
    [paymentMethods] is present and contains a method with id [i] whose name
    is a non-empty string accepted by the policy's matcher; in the extended
    policy that name does not contain "gift". *)
Theorem X3_hidden_method_comes_from_the_list
    (input : Input) (r : Result) (i : nullable string) :
  (result (Base.cartPaymentMethodsTransformRun input) = Return r ->
   In (paymentMethodHide i) (operations r) ->
   exists l m n,
     paymentMethods input = Val l /\ In m l /\ PaymentMethod.id m = i /\
     PaymentMethod.name m = Val n /\ n <> ""%string /\ base_matches m = true) /\
  (result (Extended.cartPaymentMethodsTransformRun input) = Return r ->
   In (paymentMethodHide i) (operations r) ->
   exists l m n,
     paymentMethods input = Val l /\ In m l /\ PaymentMethod.id m = i /\
     PaymentMethod.name m = Val n /\ n <> ""%string /\ extended_matches m = true /\
     mentions_gift m = false).
Proof.
  split; intros H I.
  - destruct (@base_hidden_is_target input r i H I) as (cc & F & E).
    destruct (paymentMethods input) as [| | l]; try discriminate F.
    rewrite base_find_unfold in F. apply array_find_sound in F. destruct F as [Mt Il].
    destruct (name_matches_named _ _ Mt) as (n & Hn & Ne & _).
    exists l, cc, n. auto 10.
  - destruct (@extended_hidden_is_target input r i H I) as (cc & F & E).
    destruct (paymentMethods input) as [| | l]; try discriminate F.
    rewrite extended_find_unfold in F. apply array_find_sound in F.
    destruct F as [Mt Il].
    destruct (name_matches_named _ _ Mt) as (n & Hn & Ne & _).
    exists l, cc, n. repeat split; trivial. apply extended_matches_no_gift, Mt.
Qed.

Lemma X3_hidden_method_witness :
  exists l m n,
    Val [gift_card; visa_credit_card] = Val l /\ In m l /\
    PaymentMethod.id m = Val "pm1"%string /\
    PaymentMethod.name m = Val n /\ n <> ""%string /\ extended_matches m = true /\
    mentions_gift m = false.
Proof.
  apply (proj2 (X3_hidden_method_comes_from_the_list
                  (b2c_input [gift_card; visa_credit_card] Undefined [] [])
                  (hide visa_credit_card) (Val "pm1"%string))).
  - reflexivity.
  - left. reflexivity.
Defined.

(* ------------------------------------------------------------------ *)
(** * More on the parcel check *)

Lemma base_parcel_loop_app (pre rest : list CartLine) :
  Forall line_well_formed pre ->
  result (Base.parcel_loop (pre ++ rest)) =
  if forallb base_line_passes pre then result (Base.parcel_loop rest) else Return false.
Proof.
  induction 1 as [| line pre (m & p & Hm & Hp) _ IH]; [reflexivity |].
  cbn [app Base.parcel_loop forallb]. unfold base_line_passes at 1.
  rewrite Hm, Hp. cbn [read]. rewrite result_bind. cbn [ret result snd].
  destruct (field_eq_string (__typename m) "ProductVariant"); cbn [negb andb];
    [| reflexivity].
  rewrite Hp. cbn [read]. rewrite result_bind. cbn [ret result snd].
  unfold no_disqualifying_flag.
  destruct (strict_eq_string (value_of (Product.requiresLtl p)) "true");
    cbn [negb andb]; [reflexivity |].
  destruct (strict_eq_string (value_of (Product.isParcelEligible p)) "false");
    cbn [negb andb]; [reflexivity |].
  destruct (to_boolean (weight m) && gt (weight m) PARCEL_WEIGHT_THRESHOLD_LBS);
    cbn [negb]; [reflexivity | exact IH].
Qed.

Lemma extended_parcel_loop_app (pre rest : list CartLine) :
  Forall line_well_formed pre ->
  result (Extended.parcel_loop (pre ++ rest)) =
  if forallb extended_line_passes pre
  then result (Extended.parcel_loop rest) else Return false.
Proof.
  induction 1 as [| line pre (m & p & Hm & Hp) _ IH]; [reflexivity |].
  cbn [app Extended.parcel_loop forallb]. unfold extended_line_passes at 1.
  rewrite Hm. cbn [read]. rewrite result_bind. cbn [ret result snd].
  destruct (field_eq_string (__typename m) "ProductVariant"); cbn [negb andb];
    [| reflexivity].
  cbv zeta. rewrite Hp.
  destruct (is_null (weight m) || is_undefined (weight m) ||
            strict_eq_number (weight m) 0%float); cbn [orb negb]; [reflexivity |].
  destruct (gt (weight m) PARCEL_WEIGHT_THRESHOLD_LBS); cbn [negb];
    [reflexivity | exact IH].
Qed.

Lemma base_parcel_nonempty (line : CartLine) (rest : list CartLine) :
  Base.isCartParcelEligible (Val (line :: rest)) = Base.parcel_loop (line :: rest).
Proof. reflexivity. Qed.

Lemma extended_parcel_nonempty (line : CartLine) (rest : list CartLine) :
  Extended.isCartParcelEligible (Val (line :: rest)) =
  Extended.parcel_loop (line :: rest).
Proof. reflexivity. Qed.

Lemma base_parcel_forallb (ls : list CartLine) :
  Forall line_well_formed ls ->
  result (Base.isCartParcelEligible (Val ls)) = Return (forallb base_line_passes ls).
Proof.
  intros W. destruct ls as [| line ls]; [reflexivity |].
  pose proof (base_parcel_loop_app [] W) as H. rewrite app_nil_r in H.
  rewrite base_parcel_nonempty, H.
  destruct (forallb base_line_passes (line :: ls)); reflexivity.
Qed.

Lemma extended_parcel_forallb (ls : list CartLine) :
  Forall line_well_formed ls ->
  result (Extended.isCartParcelEligible (Val ls)) =
  Return (forallb extended_line_passes ls).
Proof.
  intros W. destruct ls as [| line ls]; [reflexivity |].
  pose proof (extended_parcel_loop_app [] W) as H. rewrite app_nil_r in H.
  rewrite extended_parcel_nonempty, H.
  destruct (forallb extended_line_passes (line :: ls)); reflexivity.
Qed.

(** X4: on a cart whose lines all have their [merchandise] and [product]
    objects, the parcel check of either policy returns without throwing, and
    what it returns is the conjunction over the lines of the per-line rule:
    the loop with its early [return false] computes "every line passes". *)
Theorem X4_parcel_check_is_conjunction (ls : list CartLine) :
  Forall line_well_formed ls ->
  result (Base.isCartParcelEligible (Val ls)) = Return (forallb base_line_passes ls) /\
  result (Extended.isCartParcelEligible (Val ls)) =
  Return (forallb extended_line_passes ls).
Proof.
  intros W. split; [apply base_parcel_forallb | apply extended_parcel_forallb]; exact W.
Qed.

Lemma well_formed_variant_line (w : nullable float) (p : Product.t) :
  line_well_formed (variant_line w (Val p)).
Proof.
  exists {| __typename := Val "ProductVariant"; weight := w; product := Val p |}, p.
  split; reflexivity.
Qed.

Lemma X4_parcel_check_witness :
  result (Base.isCartParcelEligible
            (Val [variant_line (Val 20%float) (Val plain_product);
                  variant_line (Val 200%float) (Val plain_product)]))
  = Return false /\
  result (Extended.isCartParcelEligible
            (Val [variant_line (Val 20%float) (Val plain_product);
                  variant_line (Val 200%float) (Val plain_product)]))
  = Return false.
Proof.
  apply (@X4_parcel_check_is_conjunction
           [variant_line (Val 20%float) (Val plain_product);
            variant_line (Val 200%float) (Val plain_product)]).
  repeat constructor; apply well_formed_variant_line.
Defined.

(** X5: the parcel loop stops at the first failing line.  When the lines
    before it are well formed and pass, and the failing line is well formed,
    the check of either policy returns [false] whatever follows: later
    lines are not read, so a later line without [merchandise] does not make
    the check throw. *)
Theorem X5_parcel_check_short_circuits (pre rest : list CartLine) (bad : CartLine) :
  Forall line_well_formed pre ->
  line_well_formed bad ->
  (forallb base_line_passes pre = true ->
   base_line_passes bad = false ->
   result (Base.isCartParcelEligible (Val (pre ++ bad :: rest))) = Return false) /\
  (forallb extended_line_passes pre = true ->
   extended_line_passes bad = false ->
   result (Extended.isCartParcelEligible (Val (pre ++ bad :: rest))) = Return false).
Proof.
  intros W Wb.
  assert (W' : Forall line_well_formed (pre ++ [bad])).
  { apply Forall_app. split; [exact W | repeat constructor; exact Wb]. }
  assert (E : pre ++ bad :: rest = (pre ++ [bad]) ++ rest).
  { rewrite <- app_assoc. reflexivity. }
  assert (N : exists x l, pre ++ bad :: rest = x :: l).
  { destruct pre; simpl; eauto. }
  destruct N as (x & l & N).
  split; intros P B.
  - rewrite N, base_parcel_nonempty, <- N, E, (base_parcel_loop_app rest W').
    rewrite forallb_app. cbn [forallb]. rewrite P, B. reflexivity.
  - rewrite N, extended_parcel_nonempty, <- N, E, (extended_parcel_loop_app rest W').
    rewrite forallb_app. cbn [forallb]. rewrite P, B. reflexivity.
Qed.

Lemma X5_parcel_short_circuit_witness :
  result (Base.isCartParcelEligible
            (Val ([variant_line (Val 20%float) (Val plain_product)] ++
                  variant_line (Val 200%float) (Val plain_product) ::
                  [{| merchandise := Undefined |}])))
  = Return false /\
  result (Extended.isCartParcelEligible
            (Val ([variant_line (Val 20%float) (Val plain_product)] ++
                  variant_line (Val 200%float) (Val plain_product) ::
                  [{| merchandise := Undefined |}])))
  = Return false.
Proof.
  destruct (@X5_parcel_check_short_circuits
              [variant_line (Val 20%float) (Val plain_product)]
              [{| merchandise := Undefined |}]
              (variant_line (Val 200%float) (Val plain_product))) as [B E].
  - repeat constructor. apply well_formed_variant_line.
  - apply well_formed_variant_line.
  - split; [apply B | apply E]; reflexivity.
Defined.

Lemma bind_ret_l (A B : Type) (a : A) (f : A -> M B) : bind (ret a) f = f a.
Proof. unfold bind, ret. destruct (f a). reflexivity. Qed.

(** X6: a line whose [__typename] is absent or differs from
    "ProductVariant" fails the parcel check of either policy at once, with
    the one log line of that branch: neither [product] nor [weight] is read,
    so the line may lack both, and the lines after it are not visited. *)
Theorem X6_non_variant_line_fails (m : Merchandise) (rest : list CartLine) :
  field_eq_string (__typename m) "ProductVariant" = false ->
  Base.isCartParcelEligible (Val ({| merchandise := Val m |} :: rest)) =
  (["Non-product variant found: ${line.merchandise.__typename} - hiding CC"],
   Return false) /\
  Extended.isCartParcelEligible (Val ({| merchandise := Val m |} :: rest)) =
  (["Non-product variant found: ${line.merchandise.__typename} - hiding CC"],
   Return false).
Proof.
  intros T. rewrite base_parcel_nonempty, extended_parcel_nonempty.
  cbn [Base.parcel_loop Extended.parcel_loop merchandise read].
  rewrite !bind_ret_l, T. split; reflexivity.
Qed.

Lemma X6_non_variant_line_witness :
  Base.isCartParcelEligible
    (Val [{| merchandise :=
               Val {| __typename := Val "CustomProduct"; weight := Undefined;
                      product := Undefined |} |};
          {| merchandise := Undefined |}]) =
  (["Non-product variant found: ${line.merchandise.__typename} - hiding CC"],
   Return false) /\
  Extended.isCartParcelEligible
    (Val [{| merchandise :=
               Val {| __typename := Val "CustomProduct"; weight := Undefined;
                      product := Undefined |} |};
          {| merchandise := Undefined |}]) =
  (["Non-product variant found: ${line.merchandise.__typename} - hiding CC"],
   Return false).
Proof.
  apply (@X6_non_variant_line_fails
           {| __typename := Val "CustomProduct"; weight := Undefined;
              product := Undefined |}
           [{| merchandise := Undefined |}]).
  reflexivity.
Defined.

Lemma extended_loop_ignores_flags (ls : list CartLine) :
  Extended.parcel_loop (map strip_flags ls) = Extended.parcel_loop ls.
Proof.
  induction ls as [| [[| | m]] ls IH]; try reflexivity.
  cbn [map strip_flags merchandise Extended.parcel_loop read].
  rewrite !bind_ret_l. cbn [__typename weight product].
  destruct (negb (field_eq_string (__typename m) "ProductVariant")); [reflexivity |].
  cbv zeta.
  destruct (is_null (weight m) || is_undefined (weight m) ||
            strict_eq_number (weight m) 0%float).
  { destruct (product m); reflexivity. }
  destruct (gt (weight m) PARCEL_WEIGHT_THRESHOLD_LBS).
  { destruct (product m); reflexivity. }
  rewrite IH. reflexivity.
Qed.

(** X7: the extended parcel check never consults the product flags.
    Removing [requiresLtl] and [isParcelEligible] from every product leaves
    its log and result unchanged, for any cart; hence a [ProductVariant]
    line whose product carries a disqualifying flag and whose weight is a
    non-zero number not above the threshold passes the extended check and
    fails the base check. *)
Theorem X7_extended_policy_ignores_flags :
  (forall ls : list CartLine,
      Extended.isCartParcelEligible (Val (map strip_flags ls)) =
      Extended.isCartParcelEligible (Val ls)) /\
  (forall (p : Product.t) (w : float),
      no_disqualifying_flag p = false ->
      PrimFloat.eqb w 0%float = false ->
      PrimFloat.ltb PARCEL_WEIGHT_THRESHOLD_LBS w = false ->
      result (Base.isCartParcelEligible (Val [variant_line (Val w) (Val p)]))
      = Return false /\
      result (Extended.isCartParcelEligible (Val [variant_line (Val w) (Val p)]))
      = Return true).
Proof.
  split.
  - intros [| line ls]; [reflexivity |].
    cbn [map]. rewrite !extended_parcel_nonempty.
    apply (extended_loop_ignores_flags (line :: ls)).
  - intros p w F Z G.
    rewrite (@base_parcel_forallb [variant_line (Val w) (Val p)]),
            (@extended_parcel_forallb [variant_line (Val w) (Val p)])
      by (repeat constructor; apply well_formed_variant_line).
    unfold forallb, base_line_passes, extended_line_passes, variant_line.
    cbn [merchandise __typename weight product field_eq_string is_null is_undefined
         strict_eq_number gt to_number orb].
    unfold gt, to_number. rewrite F, Z, G. split; reflexivity.
Qed.

Lemma X7_extended_policy_ignores_flags_witness :
  result (Base.isCartParcelEligible
            (Val [variant_line (Val 20%float)
                    (Val {| Product.id := Val "p2";
                            Product.requiresLtl := metafield "true";
                            Product.isParcelEligible := Undefined |})]))
  = Return false /\
  result (Extended.isCartParcelEligible
            (Val [variant_line (Val 20%float)
                    (Val {| Product.id := Val "p2";
                            Product.requiresLtl := metafield "true";
                            Product.isParcelEligible := Undefined |})]))
  = Return true.
Proof.
  apply (proj2 X7_extended_policy_ignores_flags
           {| Product.id := Val "p2";
              Product.requiresLtl := metafield "true";
              Product.isParcelEligible := Undefined |} 20%float);
    reflexivity.
Defined.

(** X8: the two policies disagree on a [ProductVariant] line that has no
    [product] object but a non-zero weight not above the threshold: the
    extended check reads the product only to build a failure message and
    passes the line, while the base check reads [product.requiresLtl] first
    and throws a [TypeError]. *)
Theorem X8_missing_product_with_good_weight (m : Merchandise) (w : float) :
  __typename m = Val "ProductVariant" ->
  product m = Undefined ->
  weight m = Val w ->
  PrimFloat.eqb w 0%float = false ->
  PrimFloat.ltb PARCEL_WEIGHT_THRESHOLD_LBS w = false ->
  Extended.isCartParcelEligible (Val [{| merchandise := Val m |}]) = ([], Return true) /\
  Base.isCartParcelEligible (Val [{| merchandise := Val m |}]) =
  ([], Throw (TypeError "Cannot read properties of undefined (reading 'requiresLtl')")).
Proof.
  intros T P W Z G.
  rewrite base_parcel_nonempty, extended_parcel_nonempty.
  cbn [Base.parcel_loop Extended.parcel_loop merchandise read].
  rewrite !bind_ret_l, T. cbn [field_eq_string]. rewrite String.eqb_refl.
  cbn [negb]. cbv zeta. rewrite P, W.
  cbn [is_null is_undefined strict_eq_number orb]. unfold gt, to_number.
  rewrite Z, G. split; reflexivity.
Qed.

Lemma X8_missing_product_witness :
  Extended.isCartParcelEligible (Val [variant_line (Val 20%float) Undefined]) =
  ([], Return true) /\
  Base.isCartParcelEligible (Val [variant_line (Val 20%float) Undefined]) =
  ([], Throw (TypeError "Cannot read properties of undefined (reading 'requiresLtl')")).
Proof.
  apply (@X8_missing_product_with_good_weight
           {| __typename := Val "ProductVariant"; weight := Val 20%float;
              product := Undefined |} 20%float); reflexivity.
Defined.

(* ------------------------------------------------------------------ *)
(** * Order of groups and lines *)

Lemma forallb_permutation (A : Type) (f : A -> bool) (l l' : list A) :
  Permutation l l' -> forallb f l = forallb f l'.
Proof.
  induction 1 as [| x l l' _ IH | x y l | l l' l'' _ IH1 _ IH2]; simpl.
  - reflexivity.
  - rewrite IH. reflexivity.
  - destruct (f x), (f y); reflexivity.
  - rewrite IH1. exact IH2.
Qed.

Lemma group_passes_filter (gs : list DeliveryGroup) :
  forallb group_passes (filter has_selection gs) = forallb group_passes gs.
Proof.
  induction gs as [| g gs IH]; [reflexivity |].
  cbn [filter forallb]. unfold has_selection at 1, group_passes at 2.
  destruct (selectedDeliveryOption g) as [| | o] eqn:E; cbn [truthy andb].
  - exact IH.
  - exact IH.
  - cbn [forallb]. unfold group_passes at 1. rewrite E, IH. reflexivity.
Qed.

(** X9: the shipping check is an AND across the delivery groups: its result
    does not depend on the order of the groups, and groups without a
    selected option can be removed without changing it. *)
Theorem X9_shipping_check_order_and_unselected :
  (forall gs gs' : list DeliveryGroup,
      Permutation gs gs' ->
      result (Extended.isShippingMethodEligible (Val gs)) =
      result (Extended.isShippingMethodEligible (Val gs'))) /\
  (forall gs : list DeliveryGroup,
      result (Extended.isShippingMethodEligible (Val (filter has_selection gs))) =
      result (Extended.isShippingMethodEligible (Val gs))).
Proof.
  split.
  - intros gs gs' P. rewrite !isShippingMethodEligible_result. cbn [or_else].
    rewrite (forallb_permutation group_passes P). reflexivity.
  - intros gs. rewrite !isShippingMethodEligible_result. cbn [or_else].
    rewrite group_passes_filter. reflexivity.
Qed.

Lemma X9_shipping_check_order_witness :
  result (Extended.isShippingMethodEligible
            (Val [option_group "FedEx Home Delivery" "fhd";
                  option_group "Freight" "ltl"])) =
  result (Extended.isShippingMethodEligible
            (Val [option_group "Freight" "ltl";
                  option_group "FedEx Home Delivery" "fhd"])).
Proof.
  apply (proj1 X9_shipping_check_order_and_unselected). apply perm_swap.
Defined.

(** X10: on a cart whose lines all have their [merchandise] and [product]
    objects, the result of the parcel check of either policy does not
    depend on the order of the lines. *)
Theorem X10_parcel_check_order (ls ls' : list CartLine) :
  Permutation ls ls' ->
  Forall line_well_formed ls ->
  result (Base.isCartParcelEligible (Val ls)) =
  result (Base.isCartParcelEligible (Val ls')) /\
  result (Extended.isCartParcelEligible (Val ls)) =
  result (Extended.isCartParcelEligible (Val ls')).
Proof.
  intros P W.
  assert (W' : Forall line_well_formed ls') by (rewrite <- P; exact W).
  rewrite !base_parcel_forallb, !extended_parcel_forallb by assumption.
  rewrite (forallb_permutation base_line_passes P),
          (forallb_permutation extended_line_passes P).
  split; reflexivity.
Qed.

Lemma X10_parcel_check_order_witness :
  result (Base.isCartParcelEligible
            (Val [variant_line (Val 200%float) (Val plain_product);
                  variant_line (Val 20%float) (Val plain_product)])) =
  result (Base.isCartParcelEligible
            (Val [variant_line (Val 20%float) (Val plain_product);
                  variant_line (Val 200%float) (Val plain_product)])) /\
  result (Extended.isCartParcelEligible
            (Val [variant_line (Val 200%float) (Val plain_product);
                  variant_line (Val 20%float) (Val plain_product)])) =
  result (Extended.isCartParcelEligible
            (Val [variant_line (Val 20%float) (Val plain_product);
                  variant_line (Val 200%float) (Val plain_product)])).
Proof.
  apply (@X10_parcel_check_order
           [variant_line (Val 200%float) (Val plain_product);
            variant_line (Val 20%float) (Val plain_product)]
           [variant_line (Val 20%float) (Val plain_product);
            variant_line (Val 200%float) (Val plain_product)]).
  - apply perm_swap.
  - repeat constructor; apply well_formed_variant_line.
Defined.

(* ------------------------------------------------------------------ *)
(** * More on decision composition *)

Lemma customer_result (c : nullable Customer) :
  result (Extended.isCustomerEligible c) = Return (customer_passes c).
Proof. rewrite isCustomerEligible_same. apply isCustomerEligible_result. Qed.

Lemma location_result (pc : nullable PurchasingCompany) :
  result (Extended.isLocationEligible pc) = Return (location_passes pc).
Proof.
  destruct pc as [| | c]; try reflexivity. apply isLocationEligible_present.
Qed.

(** X11: the extended evaluator as one formula.  With a target found and
    every cart line carrying its [merchandise] and [product] objects, the
    evaluator returns, and it returns [NO_CHANGES] exactly when the
    customer, location, parcel and shipping checks all pass, and the single
    operation hiding the target otherwise. *)
Theorem X11_extended_decision (input : Input) (cc : PaymentMethod.t) :
  Extended.findCreditCardPaymentMethod (paymentMethods input) = Val cc ->
  Forall line_well_formed (lines_of input) ->
  result (Extended.cartPaymentMethodsTransformRun input) =
  Return (if customer_passes (customer_of input) &&
             location_passes (purchasingCompany_of input) &&
             forallb extended_line_passes (lines_of input) &&
             forallb group_passes (groups_of input)
          then NO_CHANGES
          else hide cc).
Proof.
  intros F W.
  rewrite (extended_run_result input F), customer_result, location_result,
    (extended_parcel_forallb W), isShippingMethodEligible_result.
  fold (groups_of input). cbn [or_else].
  destruct (customer_passes (customer_of input)); [| reflexivity].
  destruct (location_passes (purchasingCompany_of input)); [| reflexivity].
  destruct (forallb extended_line_passes (lines_of input)); [| reflexivity].
  destruct (forallb group_passes (groups_of input)); reflexivity.
Qed.

Lemma X11_extended_decision_witness :
  result (Extended.cartPaymentMethodsTransformRun
            (b2c_input [visa_credit_card] (Val pilot_customer)
               [variant_line (Val 50%float) (Val plain_product)]
               [option_group "Freight" "ltl"]))
  = Return (hide visa_credit_card).
Proof.
  apply (@X11_extended_decision
           (b2c_input [visa_credit_card] (Val pilot_customer)
              [variant_line (Val 50%float) (Val plain_product)]
              [option_group "Freight" "ltl"])
           visa_credit_card).
  - reflexivity.
  - repeat constructor; apply well_formed_variant_line.
Defined.

(** X12: the base evaluator as one formula.  With a target found and every
    cart line carrying its [merchandise] and [product] objects, the
    evaluator returns [NO_CHANGES] exactly when the customer check and the
    parcel check pass, and the single operation hiding the target
    otherwise. *)
Theorem X12_base_decision (input : Input) (cc : PaymentMethod.t) :
  Base.findCreditCardPaymentMethod (paymentMethods input) = Val cc ->
  Forall line_well_formed (lines_of input) ->
  result (Base.cartPaymentMethodsTransformRun input) =
  Return (if customer_passes (customer_of input) &&
             forallb base_line_passes (lines_of input)
          then NO_CHANGES
          else hide cc).
Proof.
  intros F W.
  rewrite (base_run_result input F), isCustomerEligible_result,
    (base_parcel_forallb W).
  fold (customer_passes (customer_of input)).
  destruct (customer_passes (customer_of input)); [| reflexivity].
  destruct (forallb base_line_passes (lines_of input)); reflexivity.
Qed.

Lemma X12_base_decision_witness :
  result (Base.cartPaymentMethodsTransformRun
            (b2c_input [visa_credit_card] (Val pilot_customer)
               [variant_line (Val 50%float) (Val plain_product)]
               [option_group "Freight" "ltl"]))
  = Return NO_CHANGES.
Proof.
  apply (@X12_base_decision
           (b2c_input [visa_credit_card] (Val pilot_customer)
              [variant_line (Val 50%float) (Val plain_product)]
              [option_group "Freight" "ltl"])
           visa_credit_card).
  - reflexivity.
  - repeat constructor; apply well_formed_variant_line.
Defined.

(** X13: the base evaluator never consults [purchasingCompany] or
    [deliveryGroups]: two inputs with the same payment methods, the same
    customer and the same cart lines get the same outcome, be it a decision
    or a thrown error. *)
Theorem X13_base_ignores_company_and_shipping (input input' : Input) :
  paymentMethods input' = paymentMethods input ->
  customer_of input' = customer_of input ->
  lines_of input' = lines_of input ->
  result (Base.cartPaymentMethodsTransformRun input') =
  result (Base.cartPaymentMethodsTransformRun input).
Proof.
  intros P C L.
  destruct (Base.findCreditCardPaymentMethod (paymentMethods input)) as [| | cc] eqn:F.
  - rewrite !base_run_no_target by (rewrite ?P, F; reflexivity). reflexivity.
  - rewrite !base_run_no_target by (rewrite ?P, F; reflexivity). reflexivity.
  - rewrite (base_run_result input F).
    rewrite <- P in F. rewrite (base_run_result input' F), C, L. reflexivity.
Qed.

Lemma X13_base_ignores_company_witness :
  result (Base.cartPaymentMethodsTransformRun
            {| paymentMethods := Val [visa_credit_card];
               cart := Val {| buyerIdentity :=
                                Val {| customer := Val pilot_customer;
                                       purchasingCompany :=
                                         Val {| location := Undefined |} |};
                              lines := Undefined;
                              deliveryGroups := Val [option_group "Freight" "ltl"] |} |})
  = result (Base.cartPaymentMethodsTransformRun
              (b2c_input [visa_credit_card] (Val pilot_customer) [] [])).
Proof.
  apply (@X13_base_ignores_company_and_shipping
           (b2c_input [visa_credit_card] (Val pilot_customer) [] [])); reflexivity.
Defined.

Lemma customer_passes_silently (c : nullable Customer) :
  customer_passes c = true -> Extended.isCustomerEligible c = ([], Return true).
Proof.
  unfold customer_passes. destruct c as [| | cu]; simpl; try discriminate.
  intros ->. reflexivity.
Qed.

(** X14: in the extended evaluator a failing location check ends the
    evaluation.  With a target found and the customer check passed, a
    purchasing company whose location is absent or not enabled yields the
    operation hiding the target; the log stops after the location check, and
    the cart lines and delivery groups are not read, so malformed lines do
    not make the evaluator throw. *)
Theorem X14_location_failure_hides_target (input : Input) (cc : PaymentMethod.t) :
  Extended.findCreditCardPaymentMethod (paymentMethods input) = Val cc ->
  customer_passes (customer_of input) = true ->
  location_passes (purchasingCompany_of input) = false ->
  Extended.cartPaymentMethodsTransformRun input =
  (preamble ++ ["Customer data:"; "Purchasing company:"] ++
   logs (Extended.isLocationEligible (purchasingCompany_of input)) ++
   ["Location not eligible - hiding CC payment method"; "Returning hide result:"],
   Return {| operations := [paymentMethodHide (PaymentMethod.id cc)] |}).
Proof.
  intros F C L. rewrite (M_eq (Extended.cartPaymentMethodsTransformRun input)).
  rewrite (extended_run_result input F), customer_result, C, location_result, L.
  f_equal.
  unfold Extended.cartPaymentMethodsTransformRun. cbv zeta.
  rewrite !logs_log_then, F, !logs_log_then, logs_bind.
  fold (customer_of input). rewrite (customer_passes_silently _ C).
  cbn [logs result fst snd negb app].
  rewrite logs_log_then, logs_bind. fold (purchasingCompany_of input).
  rewrite location_result, L. reflexivity.
Qed.

Lemma X14_location_failure_witness :
  Extended.cartPaymentMethodsTransformRun
    {| paymentMethods := Val [visa_credit_card];
       cart := Val {| buyerIdentity :=
                        Val {| customer := Val pilot_customer;
                               purchasingCompany := Val {| location := Undefined |} |};
                      lines := Val [{| merchandise := Undefined |}];
                      deliveryGroups := Undefined |} |} =
  (preamble ++
   ["Customer data:"; "Purchasing company:";
    "No location found for B2B customer - hiding CC";
    "Location not eligible - hiding CC payment method"; "Returning hide result:"],
   Return {| operations := [paymentMethodHide (Val "pm1")] |}).
Proof.
  apply (@X14_location_failure_hides_target
           {| paymentMethods := Val [visa_credit_card];
              cart := Val {| buyerIdentity :=
                               Val {| customer := Val pilot_customer;
                                      purchasingCompany :=
                                        Val {| location := Undefined |} |};
                             lines := Val [{| merchandise := Undefined |}];
                             deliveryGroups := Undefined |} |}
           visa_credit_card); reflexivity.
Defined.

(* ------------------------------------------------------------------ *)
(** * Names, case and missing context *)

Lemma toLowerCase_empty (n : string) :
  String.eqb (toLowerCase n) "" = String.eqb n "".
Proof. destruct n; reflexivity. Qed.

Lemma name_matches_lower (q : string -> bool) (i i' : nullable string) (n n' : string) :
  toLowerCase n = toLowerCase n' ->
  name_matches q {| PaymentMethod.id := i; PaymentMethod.name := Val n |} =
  name_matches q {| PaymentMethod.id := i'; PaymentMethod.name := Val n' |}.
Proof.
  intros E. unfold name_matches. cbn [PaymentMethod.name].
  rewrite <- (toLowerCase_empty n), <- (toLowerCase_empty n'), E. reflexivity.
Qed.

Lemma lower_ascii_idempotent (c : ascii) : lower_ascii (lower_ascii c) = lower_ascii c.
Proof.
  destruct c as [[] [] [] [] [] [] [] []]; reflexivity.
Qed.

Lemma toLowerCase_idempotent (s : string) : toLowerCase (toLowerCase s) = toLowerCase s.
Proof.
  induction s as [| c s IH]; [reflexivity |].
  cbn [toLowerCase]. rewrite lower_ascii_idempotent, IH. reflexivity.
Qed.

(** X15: matching is insensitive to (ASCII) case.  Two names with the same
    lower-cased form get the same verdict from the matcher of either
    resolver, and two titles with the same lower-cased form get the same
    verdict from the shipping check; in particular a name or title may be
    replaced by its lower-cased form. *)
Theorem X15_matching_ignores_case (n n' : string) :
  toLowerCase n = toLowerCase n' ->
  (forall i i' : nullable string,
      base_matches {| PaymentMethod.id := i; PaymentMethod.name := Val n |} =
      base_matches {| PaymentMethod.id := i'; PaymentMethod.name := Val n' |} /\
      extended_matches {| PaymentMethod.id := i; PaymentMethod.name := Val n |} =
      extended_matches {| PaymentMethod.id := i'; PaymentMethod.name := Val n' |}) /\
  (forall h h' : nullable string,
      group_passes
        {| selectedDeliveryOption := Val {| title := Val n; handle := h |} |} =
      group_passes
        {| selectedDeliveryOption := Val {| title := Val n'; handle := h' |} |}) /\
  toLowerCase (toLowerCase n) = toLowerCase n.
Proof.
  intros E. split; [| split].
  - intros i i'. split; apply name_matches_lower; exact E.
  - intros h h'. unfold group_passes. cbn [selectedDeliveryOption title].
    unfold Extended.lower_or_empty. rewrite E. reflexivity.
  - apply toLowerCase_idempotent.
Qed.

Lemma X15_matching_ignores_case_witness :
  base_matches (method "a" "CREDIT Card") = base_matches (method "b" "credit card") /\
  extended_matches (method "a" "CREDIT Card") =
  extended_matches (method "b" "credit card").
Proof.
  apply (proj1 (@X15_matching_ignores_case "CREDIT Card" "credit card" eq_refl)).
Defined.

Lemma includes_nonempty (s sub : string) :
  includes (toLowerCase s) sub = true -> sub <> ""%string -> String.eqb s "" = false.
Proof.
  destruct s; [| reflexivity]. simpl. rewrite orb_false_r.
  destruct sub; [intros _ N; contradiction N; reflexivity | discriminate].
Qed.

(** X16: the two resolvers target different names.  A name containing
    "credit" and not "gift" is matched by both; a name containing "card" or
    "visa" but none of "credit", "bogus", "stripe" is matched by the base
    resolver only; a name containing "bogus" or "stripe" but none of
    "gift", "credit", "card", "visa" is matched by the extended resolver
    only. *)
Theorem X16_resolvers_target_different_names (m : PaymentMethod.t) (n : string) :
  PaymentMethod.name m = Val n ->
  (includes (toLowerCase n) "credit" = true ->
   includes (toLowerCase n) "gift" = false ->
   base_matches m = true /\ extended_matches m = true) /\
  (includes (toLowerCase n) "card" || includes (toLowerCase n) "visa" = true ->
   includes (toLowerCase n) "credit" = false ->
   includes (toLowerCase n) "bogus" || includes (toLowerCase n) "stripe" = false ->
   base_matches m = true /\ extended_matches m = false) /\
  (includes (toLowerCase n) "bogus" || includes (toLowerCase n) "stripe" = true ->
   includes (toLowerCase n) "gift" = false ->
   includes (toLowerCase n) "credit" = false ->
   includes (toLowerCase n) "card" || includes (toLowerCase n) "visa" = false ->
   base_matches m = false /\ extended_matches m = true).
Proof.
  intros N. unfold base_matches, extended_matches, name_matches. rewrite N.
  split; [| split].
  - intros C G. rewrite C, G, (includes_nonempty n C) by discriminate.
    split; reflexivity.
  - intros CV C BS. apply orb_false_elim in BS. destruct BS as [Bo St].
    rewrite C, Bo, St.
    assert (E : String.eqb n "" = false).
    { apply orb_prop in CV. destruct CV as [H | H];
        apply (includes_nonempty n H); discriminate. }
    rewrite E. cbn [negb andb orb].
    split.
    + apply orb_prop in CV. destruct CV as [H | H]; rewrite H;
        [reflexivity | rewrite orb_true_r; reflexivity].
    + destruct (includes (toLowerCase n) "gift"); reflexivity.
  - intros BS G C CV. apply orb_false_elim in CV. destruct CV as [Ca Vi].
    rewrite G, C, Ca, Vi.
    assert (E : String.eqb n "" = false).
    { apply orb_prop in BS. destruct BS as [H | H];
        apply (includes_nonempty n H); discriminate. }
    rewrite E. cbn [negb andb orb].
    split.
    + destruct (includes (toLowerCase n) "mastercard") eqn:Mc; [| reflexivity].
      apply (includes_tail _ "master" "card") in Mc. congruence.
    + exact BS.
Qed.

Lemma X16_resolvers_witness :
  (base_matches credit_card = true /\ extended_matches credit_card = true) /\
  (base_matches (method "v" "Visa") = true /\
   extended_matches (method "v" "Visa") = false) /\
  (base_matches (method "s" "Stripe") = false /\
   extended_matches (method "s" "Stripe") = true).
Proof.
  split; [| split].
  - apply (proj1 (@X16_resolvers_target_different_names credit_card "Credit Card" eq_refl));
      reflexivity.
  - apply (proj1 (proj2 (@X16_resolvers_target_different_names
                           (method "v" "Visa") "Visa" eq_refl)));
      reflexivity.
  - apply (proj2 (proj2 (@X16_resolvers_target_different_names
                           (method "s" "Stripe") "Stripe" eq_refl)));
      reflexivity.
Defined.

(** X17: a document without a [cart], or whose cart has no [buyerIdentity],
    has no customer; when a target is found, the evaluator of either policy
    then returns the operation hiding it: the optional chaining reads the
    missing context as an absent customer instead of throwing. *)
Theorem X17_missing_cart_hides_target (input : Input) (cc : PaymentMethod.t) :
  truthy (cart input) = false \/
  (exists c, cart input = Val c /\ truthy (buyerIdentity c) = false) ->
  (Base.findCreditCardPaymentMethod (paymentMethods input) = Val cc ->
   result (Base.cartPaymentMethodsTransformRun input) = Return (hide cc)) /\
  (Extended.findCreditCardPaymentMethod (paymentMethods input) = Val cc ->
   result (Extended.cartPaymentMethodsTransformRun input) = Return (hide cc)).
Proof.
  intros H.
  assert (C : customer_passes (customer_of input) = false).
  { unfold customer_of. destruct H as [H | (c & -> & H)].
    - destruct (cart input); [reflexivity | reflexivity | discriminate].
    - cbn [chain]. destruct (buyerIdentity c); [reflexivity | reflexivity | discriminate]. }
  split; intros F.
  - rewrite (base_run_result input F), isCustomerEligible_result.
    fold (customer_passes (customer_of input)). rewrite C. reflexivity.
  - rewrite (extended_run_result input F), customer_result, C. reflexivity.
Qed.

Lemma X17_missing_cart_witness :
  result (Base.cartPaymentMethodsTransformRun
            {| paymentMethods := Val [visa_credit_card]; cart := Undefined |})
  = Return (hide visa_credit_card) /\
  result (Extended.cartPaymentMethodsTransformRun
            {| paymentMethods := Val [visa_credit_card]; cart := Undefined |})
  = Return (hide visa_credit_card).
Proof.
  destruct (@X17_missing_cart_hides_target
              {| paymentMethods := Val [visa_credit_card]; cart := Undefined |}
              visa_credit_card) as [B E].
  - left. reflexivity.
  - split; [apply B | apply E]; reflexivity.
Defined.

(** X18: a selected delivery option without a usable title (absent, [null]
    or empty) fails the shipping check whatever its handle says and whatever
    groups follow; the log holds the two lines of the failing iteration. *)
Theorem X18_selected_option_without_title_fails
    (t h : nullable string) (rest : list DeliveryGroup) :
  title_missing t ->
  Extended.isShippingMethodEligible
    (Val ({| selectedDeliveryOption := Val {| title := t; handle := h |} |} :: rest)) =
  (["Selected shipping: '${selectedOption.title}' (handle: ${selectedOption.handle})";
    "Shipping method '${selectedOption.title}' not eligible for CC - hiding CC"],
   Return false).
Proof.
  intros [-> | [-> | ->]]; reflexivity.
Qed.

Lemma X18_selected_option_without_title_witness :
  Extended.isShippingMethodEligible
    (Val [{| selectedDeliveryOption :=
               Val {| title := Undefined; handle := Val "express saver" |} |}]) =
  (["Selected shipping: '${selectedOption.title}' (handle: ${selectedOption.handle})";
    "Shipping method '${selectedOption.title}' not eligible for CC - hiding CC"],
   Return false).
Proof.
  apply (@X18_selected_option_without_title_fails Undefined (Val "express saver") []).
  left. reflexivity.
Defined.

Lemma unflagged_well_formed (ls : list CartLine) :
  Forall line_unflagged ls -> Forall line_well_formed ls.
Proof.
  apply Forall_impl. intros line (m & p & Hm & Hp & _). exists m, p. auto.
Qed.

Lemma extended_pass_implies_base_pass (ls : list CartLine) :
  Forall line_unflagged ls ->
  forallb extended_line_passes ls = true ->
  forallb base_line_passes ls = true.
Proof.
  induction 1 as [| line ls (m & p & Hm & Hp & Fl) _ IH]; [reflexivity |].
  cbn [forallb]. intros H. apply andb_prop in H. destruct H as [H1 H2].
  rewrite (IH H2), andb_true_r.
  unfold extended_line_passes in H1. unfold base_line_passes.
  rewrite Hm in *. rewrite Hp, Fl.
  apply andb_prop in H1. destruct H1 as [T W]. rewrite T. cbn [andb].
  apply negb_true_iff, orb_false_elim in W. destruct W as [_ G].
  rewrite G, andb_false_r. reflexivity.
Qed.

(** X19: on carts without disqualifying flags the extended policy is at
    least as strict as the base policy.  When both resolvers find a target,
    every line has its [merchandise] and a [product] with no disqualifying
    flag, and the extended evaluator returns [NO_CHANGES], so does the base
    evaluator. *)
Theorem X19_extended_stricter_without_flags
    (input : Input) (cb ce : PaymentMethod.t) :
  Base.findCreditCardPaymentMethod (paymentMethods input) = Val cb ->
  Extended.findCreditCardPaymentMethod (paymentMethods input) = Val ce ->
  Forall line_unflagged (lines_of input) ->
  result (Extended.cartPaymentMethodsTransformRun input) = Return NO_CHANGES ->
  result (Base.cartPaymentMethodsTransformRun input) = Return NO_CHANGES.
Proof.
  intros Fb Fe U.
  pose proof (unflagged_well_formed U) as W.
  rewrite (extended_run_result input Fe), customer_result, location_result,
    (extended_parcel_forallb W).
  rewrite (base_run_result input Fb), isCustomerEligible_result,
    (base_parcel_forallb W).
  fold (customer_passes (customer_of input)).
  destruct (customer_passes (customer_of input)); [| discriminate].
  destruct (location_passes (purchasingCompany_of input)); [| discriminate].
  destruct (forallb extended_line_passes (lines_of input)) eqn:E; [| discriminate].
  rewrite (extended_pass_implies_base_pass U E). reflexivity.
Qed.

Lemma X19_extended_stricter_witness :
  result (Base.cartPaymentMethodsTransformRun
            (b2c_input [visa_credit_card] (Val pilot_customer)
               [variant_line (Val 50%float) (Val plain_product)] []))
  = Return NO_CHANGES.
Proof.
  apply (@X19_extended_stricter_without_flags
           (b2c_input [visa_credit_card] (Val pilot_customer)
              [variant_line (Val 50%float) (Val plain_product)] [])
           visa_credit_card visa_credit_card); try reflexivity.
  repeat constructor.
  exists {| __typename := Val "ProductVariant"; weight := Val 50%float;
            product := Val plain_product |}, plain_product.
  repeat split.
Defined.
